(** * Swat Chat backend: a shallow embedding of [Backend/backend.py]

    The backend is a FastAPI module.  Importing it creates the data
    directory, fetches the SWaT operation manual unless it is already on
    disk, parses it into page records kept in the module global
    [swat_docs], and then registers four request handlers.

    The embedding keeps the program's shape: Python [str] values are
    sequences of code points, dictionaries are insertion-ordered
    association lists, and every function that talks to the outside
    (file system, HTTP, the PDF loader, the arXiv client, the clock) is a
    computation in a state-and-exception monad over a [world] that records
    the file, the module global and the chronological trace of external
    calls.  What the outside answers is read from an [env] of oracles that
    see the trace so far, so two calls of one operation may be answered
    differently. *)

From Stdlib Require Import String Ascii NArith ZArith Bool Arith Lia List.
Import ListNotations.
#[local] Open Scope list_scope.

Set Implicit Arguments.
Set Warnings "-register-all".

(* ================================================================== *)
(** ** Python values *)
(* ================================================================== *)

(** A Python [str] is a sequence of Unicode code points; slicing and
    [len] count code points, not bytes. *)
Abbreviation codepoint := N (only parsing).
Definition str := list codepoint.

(** A source literal, character by character. *)
Definition lit (s : string) : str :=
  map N_of_ascii (list_ascii_of_string s).
Arguments lit s%_string.

(** The double-quote character, as it occurs inside the source's
    single-quoted literals. *)
Definition DQUOTE : str := [34%N].

Definition bytes := list Byte.byte.

Fixpoint str_eqb (a b : str) : bool :=
  match a, b with
  | [], [] => true
  | x :: a', y :: b' => N.eqb x y && str_eqb a' b'
  | _, _ => false
  end.

(** JSON-shaped Python values: what a request body decodes to and what a
    handler returns. *)
Inductive pyval : Type :=
| VNone
| VBool (b : bool)
| VInt (z : Z)
| VStr (s : str)
| VList (l : list pyval)
| VDict (d : list (str * pyval)).

(** [d.get(k)] on an insertion-ordered dictionary. *)
Fixpoint dict_get (k : str) (d : list (str * pyval)) : option pyval :=
  match d with
  | [] => None
  | (k', v) :: d' => if str_eqb k k' then Some v else dict_get k d'
  end.

Definition dict_keys (d : list (str * pyval)) : list str := map fst d.

(** [d[k] = v]: the value of an existing key is replaced in place, a
    new key goes to the end. *)
Fixpoint dict_set (k : str) (v : pyval) (d : list (str * pyval))
  : list (str * pyval) :=
  match d with
  | [] => [(k, v)]
  | (k', v') :: d' =>
      if str_eqb k k' then (k', v) :: d' else (k', v') :: dict_set k v d'
  end.

(** One element of the sequence handed to [dict(...)]: an iterable of
    exactly two items, here a two-element list, a two-character string
    or a dictionary of two keys (iterating a dictionary gives its keys).
    Only a string key is kept: any other key, were it hashable, would
    make the keyword call that follows raise [TypeError]. *)
Definition dict_item (item : pyval) : option (str * pyval) :=
  match item with
  | VList [VStr k; v] => Some (k, v)
  | VStr [a; b] => Some ([a], VStr [b])
  | VDict [(k1, _); (k2, _)] => Some (k1, VStr k2)
  | _ => None
  end.

Fixpoint dict_of_items (items : list pyval) (d : list (str * pyval))
  : option (list (str * pyval)) :=
  match items with
  | [] => Some d
  | x :: rest =>
      match dict_item x with
      | Some (k, v) => dict_of_items rest (dict_set k v d)
      | None => None
      end
  end.

(** [dict(value)] for a decoded JSON value that is not a dictionary;
    [None] when it raises [TypeError] or [ValueError].  A non-empty
    string fails on its one-character elements. *)
Definition dict_of (value : pyval) : option (list (str * pyval)) :=
  match value with
  | VList items => dict_of_items items []
  | VStr [] => Some []
  | _ => None
  end.

(** Instances of Python's [Exception]: the class name and [str(e)]. *)
Record exn := Exn { exn_class : string; exn_message : str }.

Inductive result (A : Type) : Type :=
| Ok (a : A)
| Raised (e : exn).
Arguments Ok {A} a.
Arguments Raised {A} e.

(* ================================================================== *)
(** ** Decimal formatting ([%d], [%02d], [%04d], [%06d]) *)
(* ================================================================== *)

Definition digit (n : N) : codepoint := (48 + n mod 10)%N.

(** Decimal digits, least significant first, without leading zeros. *)
Fixpoint lsd (fuel : nat) (n : N) : list codepoint :=
  match fuel with
  | O => []
  | S f => digit n :: (if (n / 10 =? 0)%N then [] else lsd f (n / 10))
  end.

(** [str(n)] for a non-negative integer. *)
Definition decimal (n : N) : str :=
  rev (lsd (S (N.to_nat (N.log2 n))) n).

(** ["%0<w>d" % n]: at least [w] digits, zero-filled on the left. *)
Definition zfill (w : nat) (n : N) : str :=
  let d := decimal n in repeat 48%N (w - length d) ++ d.

(** [str(z)] for an integer. *)
Definition str_of_int (z : Z) : str :=
  match z with
  | Zneg p => lit "-" ++ decimal (Npos p)
  | _ => decimal (Z.to_N z)
  end.

(* ================================================================== *)
(** ** Dates and times *)
(* ================================================================== *)

Record date := Date { d_year : N; d_month : N; d_day : N }.

Record datetime := Datetime {
  year : N; month : N; day : N;
  hour : N; minute : N; second : N; microsecond : N
}.

(** [datetime.date()] *)
Definition datetime_date (t : datetime) : date :=
  Date (year t) (month t) (day t).

(** [date.isoformat()]: ["%04d-%02d-%02d"]. *)
Definition date_isoformat (d : date) : str :=
  zfill 4 (d_year d) ++ lit "-" ++ zfill 2 (d_month d) ++ lit "-"
    ++ zfill 2 (d_day d).

(** [datetime.isoformat()] of a naive datetime: the date, ['T'], the
    time, and the six-digit fraction only when it is not zero.  A naive
    value has no UTC offset, so nothing follows. *)
Definition datetime_isoformat (t : datetime) : str :=
  date_isoformat (datetime_date t) ++ lit "T"
    ++ zfill 2 (hour t) ++ lit ":" ++ zfill 2 (minute t) ++ lit ":"
    ++ zfill 2 (second t)
    ++ (if (microsecond t =? 0)%N then []
        else lit "." ++ zfill 6 (microsecond t)).

(** The ranges Python's [date] and [datetime] constructors enforce
    (the day is checked against 31 only; the month's own length is not
    needed below). *)
Definition date_ok (d : date) : Prop :=
  (1 <= d_year d <= 9999 /\ 1 <= d_month d <= 12 /\ 1 <= d_day d <= 31)%N.

Definition datetime_ok (t : datetime) : Prop :=
  date_ok (datetime_date t) /\
  (hour t < 24 /\ minute t < 60 /\ second t < 60 /\ microsecond t < 1000000)%N.

(** Chronological order of naive datetimes whose fields are in range:
    the fields weighed as mixed-radix digits. *)
Definition datetime_key (t : datetime) : N :=
  ((((((year t * 13 + month t) * 32 + day t) * 24 + hour t) * 60
      + minute t) * 60 + second t) * 1000000 + microsecond t)%N.

Definition datetime_le (a b : datetime) : Prop :=
  (datetime_key a <= datetime_key b)%N.

(* ================================================================== *)
(** ** External collaborators *)
(* ================================================================== *)

(** [requests.Response], the attributes the program reads. *)
Record Response := {
  status_code : Z;
  reason : str;
  url : str;
  content : bytes
}.

(** A page record produced by the PDF loader. *)
Record Document := { page_content : str; metadata : list (str * pyval) }.

(** [arxiv.SortCriterion] *)
Inductive SortCriterion := Relevance | LastUpdatedDate | SubmittedDate.

(** The keyword arguments of [arxiv.Search(...)]. *)
Record Search := {
  query : str;
  max_results : Z;
  sort_by : SortCriterion
}.

(** [arxiv.Result], the attributes the program reads. *)
Record paper := {
  title : str;
  summary : str;
  published : datetime;
  categories : list str
}.

(** What iterating [search.results()] does: it yields a paper, ends, or
    raises, at each step. *)
Inductive feed : Type :=
| Stop
| Yield (p : paper) (rest : feed)
| Throw (e : exn).

Fixpoint feed_of (ps : list paper) (last : feed) : feed :=
  match ps with
  | [] => last
  | p :: ps' => Yield p (feed_of ps' last)
  end.

(** One external interaction. *)
Inductive event : Type :=
| EvMkdir
| EvPrint (msg : str)
| EvHttpGet (target : str) (timeout : Z)
| EvWriteBytes (data : bytes)
| EvPdfLoaderInit (path : str)
| EvPdfLoaderLoad
| EvArxivResults (s : Search)
| EvUtcnow.

(** The process state the program can observe or change: the manual file
    at [PDF_PATH] ([None] when absent), the module global [swat_docs],
    and the trace of external interactions, oldest first. *)
Record world := World {
  pdf_file : option bytes;
  swat_docs : list Document;
  trace : list event
}.

(** The outside world.  Every oracle sees the trace so far. *)
Record env := {
  BASE_DIR : str;
  os_mkdir : list event -> option exn;
  requests_get : list event -> str -> Z -> result Response;
  (** [None]: the bytes were written.  [Some (e, remains)]: the write
      raised [e] and left the file in state [remains]. *)
  os_write_bytes : list event -> bytes -> option (exn * option bytes);
  PyPDFLoader_init : list event -> str -> option bytes -> option exn;
  PyPDFLoader_load : list event -> option bytes -> result (list Document);
  arxiv_results : list event -> Search -> feed;
  datetime_utcnow : list event -> datetime;
  (** Which pydantic is installed.  Version 1 ([true]) converts a
      number given for a [str] field to its text and tries
      [dict(value)] on a body that is not a dictionary; version 2
      ([false]) refuses both. *)
  pydantic_lax : bool
}.

(* ================================================================== *)
(** ** The state-and-exception monad *)
(* ================================================================== *)

(** A raised exception keeps the world as it was when it was raised:
    a file written before a later failure stays written. *)
Definition M (A : Type) : Type := world -> result A * world.

Definition ret {A} (a : A) : M A := fun w => (Ok a, w).

Definition bind {A B} (m : M A) (k : A -> M B) : M B :=
  fun w =>
    match m w with
    | (Ok a, w') => k a w'
    | (Raised e, w') => (Raised e, w')
    end.

Definition raise {A} (e : exn) : M A := fun w => (Raised e, w).

(** [try: body  except Exception as e: handler e] *)
Definition try_except {A} (body : M A) (handler : exn -> M A) : M A :=
  fun w =>
    match body w with
    | (Ok a, w') => (Ok a, w')
    | (Raised e, w') => handler e w'
    end.

Declare Scope py_scope.
Delimit Scope py_scope with py.
Notation "x <- m ;; k" := (bind m (fun x => k))
  (at level 100, m at next level, right associativity) : py_scope.
Notation "m ;;; k" := (bind m (fun _ => k))
  (at level 100, right associativity) : py_scope.

Definition emit (ev : event) (w : world) : world :=
  World (pdf_file w) (swat_docs w) (trace w ++ [ev]).

(* ================================================================== *)
(** ** Request and response models *)
(* ================================================================== *)

Module ChatRequest.
Record t := Make { query : str }.
End ChatRequest.

Module ChatResponse.
Record t := Make { answer : str; sources : list str; timestamp : str }.
End ChatResponse.

(** What the framework sends back: the handler's value as JSON, the
    validation error for a body that does not fit the request model, or
    the default answer to an exception that left the handler. *)
Inductive reply : Type :=
| Http200 (body : pyval)
| Http422
| Http500 (e : exn).

(** An incoming request: route and decoded JSON body. *)
Inductive request : Type :=
| PostChat (body : pyval)
| PostArxivSearch (body : pyval)
| GetHealth
| GetKbInfo.

(* ================================================================== *)
(** ** The program *)
(* ================================================================== *)

Section Program.

Variable E : env.

Local Open Scope py_scope.

(** *** Primitive operations *)

Definition print (msg : str) : M unit :=
  fun w => (Ok tt, emit (EvPrint msg) w).

(** [DATA_DIR.mkdir(exist_ok=True)] *)
Definition mkdir_data_dir : M unit :=
  fun w =>
    match os_mkdir E (trace w) with
    | None => (Ok tt, emit EvMkdir w)
    | Some e => (Raised e, emit EvMkdir w)
    end.

(** [PDF_PATH.exists()] *)
Definition path_exists : M bool :=
  fun w => (Ok (match pdf_file w with Some _ => true | None => false end), w).

(** [requests.get(url, timeout=t)] *)
Definition http_get (target : str) (timeout : Z) : M Response :=
  fun w => (requests_get E (trace w) target timeout,
            emit (EvHttpGet target timeout) w).

(** [response.raise_for_status()]: an [HTTPError] for a 4xx or 5xx
    status, nothing otherwise. *)
Definition raise_for_status (r : Response) : M unit :=
  if ((400 <=? status_code r) && (status_code r <? 500))%Z then
    raise (Exn "HTTPError"
             (str_of_int (status_code r) ++ lit " Client Error: "
                ++ reason r ++ lit " for url: " ++ url r))
  else if ((500 <=? status_code r) && (status_code r <? 600))%Z then
    raise (Exn "HTTPError"
             (str_of_int (status_code r) ++ lit " Server Error: "
                ++ reason r ++ lit " for url: " ++ url r))
  else ret tt.

(** [PDF_PATH.write_bytes(data)] *)
Definition write_bytes (data : bytes) : M unit :=
  fun w =>
    match os_write_bytes E (trace w) data with
    | None =>
        (Ok tt, World (Some data) (swat_docs w) (trace w ++ [EvWriteBytes data]))
    | Some (e, remains) =>
        (Raised e, World remains (swat_docs w) (trace w ++ [EvWriteBytes data]))
    end.

(** [PyPDFLoader(path)] *)
Definition PyPDFLoader (path : str) : M unit :=
  fun w =>
    match PyPDFLoader_init E (trace w) path (pdf_file w) with
    | None => (Ok tt, emit (EvPdfLoaderInit path) w)
    | Some e => (Raised e, emit (EvPdfLoaderInit path) w)
    end.

(** [loader.load()] *)
Definition loader_load : M (list Document) :=
  fun w => (PyPDFLoader_load E (trace w) (pdf_file w), emit EvPdfLoaderLoad w).

(** Assignment to the module global [swat_docs]. *)
Definition set_swat_docs (docs : list Document) : M unit :=
  fun w => (Ok tt, World (pdf_file w) docs (trace w)).

Definition get_swat_docs : M (list Document) :=
  fun w => (Ok (swat_docs w), w).

(** [datetime.utcnow()] *)
Definition utcnow : M datetime :=
  fun w => (Ok (datetime_utcnow E (trace w)), emit EvUtcnow w).

(** *** Module constants *)

Definition DATA_DIR : str := BASE_DIR E ++ lit "/data".

Definition PDF_PATH : str := DATA_DIR ++ lit "/SWaT Operation Manual.pdf".

Definition GITHUB_PDF_URL : str :=
  lit "https://raw.githubusercontent.com/"
    ++ lit "MeeraYasmin/Swat-Chat/main/data/SWaT%20Operation%20Manual.pdf".

(** *** Document bootstrap *)

Definition download_swat_manual : M unit :=
  present <- path_exists ;;
  if negb present then
    print (lit "[INFO] Downloading SWaT Operation Manual from GitHub...") ;;;
    response <- http_get GITHUB_PDF_URL 30 ;;
    raise_for_status response ;;;
    write_bytes (content response) ;;;
    print (lit "[INFO] Download completed")
  else ret tt.

(** The module-level [try] / [except Exception] block: its body, its
    handler, and the statement as a whole. *)
Definition load_manual_try : M unit :=
  download_swat_manual ;;;
  PyPDFLoader PDF_PATH ;;;
  docs <- loader_load ;;
  set_swat_docs docs ;;;
  print (lit "[INFO] Loaded " ++ decimal (N.of_nat (length docs))
           ++ lit " pages from SWaT manual").

Definition load_manual_except (e : exn) : M unit :=
  set_swat_docs [] ;;;
  print (lit "[ERROR] Failed to load SWaT manual: " ++ exn_message e).

Definition load_manual : M unit :=
  try_except load_manual_try load_manual_except.

(** Everything the module runs when it is imported, before any request
    is served. *)
Definition module_init : M unit :=
  mkdir_data_dir ;;;
  load_manual.

(** *** arXiv retrieval *)

Definition constrained_query (query : str) : str :=
  (lit "(ti:" ++ DQUOTE ++ lit "SWaT" ++ DQUOTE
     ++ lit " OR abs:" ++ DQUOTE ++ lit "SWaT" ++ DQUOTE
     ++ lit " OR abs:" ++ DQUOTE ++ lit "Secure Water Treatment" ++ DQUOTE
     ++ lit ") ")
  ++ (lit "AND (abs:" ++ DQUOTE ++ lit "cyber physical" ++ DQUOTE
        ++ lit " OR abs:" ++ DQUOTE ++ lit "industrial control" ++ DQUOTE
        ++ lit " ")
  ++ (lit "OR abs:" ++ DQUOTE ++ lit "ICS" ++ DQUOTE
        ++ lit " OR abs:" ++ DQUOTE ++ lit "water treatment" ++ DQUOTE
        ++ lit ") ")
  ++ (lit "AND (" ++ query ++ lit ")").

(** The dictionary appended for one paper. *)
Definition result_record (p : paper) : pyval :=
  VDict [ (lit "title", VStr (title p));
          (lit "summary", VStr (firstn 400 (summary p)));
          (lit "published",
            VStr (date_isoformat (datetime_date (published p))));
          (lit "categories", VList (map VStr (categories p))) ].

(** The [for paper in search.results(): results.append(...)] loop. *)
Fixpoint collect (f : feed) (results : list pyval) : result (list pyval) :=
  match f with
  | Stop => Ok results
  | Yield p rest => collect rest (results ++ [result_record p])
  | Throw e => Raised e
  end.

Definition default_max_results : Z := 3.

Definition search_arxiv_swat (query : str) (max_results : Z)
  : M (list pyval) :=
  fun w =>
    let search := {| query := constrained_query query;
                     max_results := max_results;
                     sort_by := Relevance |} in
    (collect (arxiv_results E (trace w) search) [],
     emit (EvArxivResults search) w).

(** *** Request validation *)

(** A field annotated [str]. *)
Definition validate_str (v : pyval) : option str :=
  match v with
  | VStr s => Some s
  | VInt z => if pydantic_lax E then Some (str_of_int z) else None
  | VBool b =>
      if pydantic_lax E then Some (if b then lit "True" else lit "False")
      else None
  | VNone | VList _ | VDict _ => None
  end.

(** [ChatRequest] called with the entries of [d] as keyword arguments:
    one required field, [query: str]; other keys are ignored.  The constructor of pydantic 1 names its own first
    parameter [__pydantic_self__], so there a key of that name makes
    the call raise [TypeError], which is reported as a validation
    error. *)
Definition ChatRequest_init (d : list (str * pyval))
  : option ChatRequest.t :=
  if pydantic_lax E
     && match dict_get (lit "__pydantic_self__") d with
        | Some _ => true
        | None => false
        end
  then None
  else
    match dict_get (lit "query") d with
    | Some v => option_map ChatRequest.Make (validate_str v)
    | None => None
    end.

(** The body validated as a [ChatRequest].  A dictionary is taken as
    it is.  Anything else is refused by pydantic 2, while pydantic 1
    first tries [dict(value)] on it. *)
Definition ChatRequest_validate (body : pyval) : option ChatRequest.t :=
  match body with
  | VDict d => ChatRequest_init d
  | _ =>
      if pydantic_lax E then
        match dict_of body with
        | Some d => ChatRequest_init d
        | None => None
        end
      else None
  end.

(** The JSON form of a [ChatResponse]. *)
Definition ChatResponse_dump (r : ChatResponse.t) : pyval :=
  VDict [ (lit "answer", VStr (ChatResponse.answer r));
          (lit "sources", VList (map VStr (ChatResponse.sources r)));
          (lit "timestamp", VStr (ChatResponse.timestamp r)) ].

(** *** Handlers *)

Definition chat_endpoint (request : ChatRequest.t) : M ChatResponse.t :=
  let placeholder_answer :=
    lit "This is a placeholder response from Swat Chat. "
      ++ lit "The RAG pipeline will retrieve relevant research from arXiv "
      ++ lit "as the primary source and ground it using the SWaT Operation Manual."
  in
  now <- utcnow ;;
  ret (ChatResponse.Make placeholder_answer
         [lit "arXiv (primary)"; lit "SWaT Operation Manual (secondary)"]
         (datetime_isoformat now)).

Definition arxiv_search (request : ChatRequest.t) : M pyval :=
  papers <- search_arxiv_swat (ChatRequest.query request)
              default_max_results ;;
  ret (VDict [ (lit "query", VStr (ChatRequest.query request));
               (lit "primary_source", VStr (lit "arXiv"));
               (lit "results", VList papers) ]).

Definition health_check : M pyval :=
  ret (VDict [ (lit "status", VStr (lit "ok")) ]).

Definition kb_info : M pyval :=
  docs <- get_swat_docs ;;
  ret (VDict [ (lit "documents_loaded",
                 VInt (Z.of_nat (length docs)));
               (lit "secondary_source", VStr (lit "SWaT Operation Manual"));
               (lit "source_location", VStr (lit "GitHub (public repo)")) ]).

(** *** The framework around the handlers *)

Definition respond (h : M pyval) : world -> reply * world :=
  fun w =>
    match h w with
    | (Ok v, w') => (Http200 v, w')
    | (Raised e, w') => (Http500 e, w')
    end.

Definition with_body (body : pyval) (h : ChatRequest.t -> M pyval)
  : world -> reply * world :=
  match ChatRequest_validate body with
  | Some req => respond (h req)
  | None => fun w => (Http422, w)
  end.

Definition serve (r : request) : world -> reply * world :=
  match r with
  | PostChat body =>
      with_body body
        (fun req => resp <- chat_endpoint req ;; ret (ChatResponse_dump resp))
  | PostArxivSearch body => with_body body arxiv_search
  | GetHealth => respond health_check
  | GetKbInfo => respond kb_info
  end.

(** Requests served one after the other; the replies in order. *)
Fixpoint serve_all (rs : list request) (w : world)
  : list reply * world :=
  match rs with
  | [] => ([], w)
  | r :: rs' =>
      let (a, w1) := serve r w in
      let (l, w2) := serve_all rs' w1 in
      (a :: l, w2)
  end.

End Program.

(* ================================================================== *)
(** ** Reading ISO 8601 text back *)
(* ================================================================== *)

(** [w] decimal digits of [n], least significant first. *)
Fixpoint lsdw (w : nat) (n : N) : list codepoint :=
  match w with
  | O => []
  | S w' => digit n :: lsdw w' (n / 10)
  end.

Definition digit_val (c : codepoint) : option N :=
  if ((48 <=? c) && (c <=? 57))%N then Some (c - 48)%N else None.

Fixpoint number_from (acc : N) (s : str) : option N :=
  match s with
  | [] => Some acc
  | c :: s' =>
      match digit_val c with
      | Some d => number_from (10 * acc + d) s'
      | None => None
      end
  end.

(** Exactly [w] digits at the head of [s]. *)
Definition take_number (w : nat) (s : str) : option (N * str) :=
  if Nat.eqb (length (firstn w s)) w then
    match number_from 0 (firstn w s) with
    | Some v => Some (v, skipn w s)
    | None => None
    end
  else None.

Definition take_char (c : codepoint) (s : str) : option str :=
  match s with
  | x :: s' => if (x =? c)%N then Some s' else None
  | [] => None
  end.
Arguments take_char c%_N s.

(** [YYYY-MM-DD] at the head of [s]. *)
Definition take_date (s : str) : option (date * str) :=
  match take_number 4 s with
  | Some (y, s1) =>
    match take_char 45 s1 with
    | Some s2 =>
      match take_number 2 s2 with
      | Some (m, s3) =>
        match take_char 45 s3 with
        | Some s4 =>
          match take_number 2 s4 with
          | Some (d, s5) => Some (Date y m d, s5)
          | None => None
          end
        | None => None
        end
      | None => None
      end
    | None => None
    end
  | None => None
  end.


(** [hh:mm:ss] at the head of [s]. *)
Definition take_time (s : str) : option (N * N * N * str) :=
  match take_number 2 s with
  | Some (h, s1) =>
    match take_char 58 s1 with
    | Some s2 =>
      match take_number 2 s2 with
      | Some (m, s3) =>
        match take_char 58 s3 with
        | Some s4 =>
          match take_number 2 s4 with
          | Some (sec, s5) => Some (h, m, sec, s5)
          | None => None
          end
        | None => None
        end
      | None => None
      end
    | None => None
    end
  | None => None
  end.

(** The instant an ISO date-time string [YYYY-MM-DDThh:mm:ss] or
    [YYYY-MM-DDThh:mm:ss.ffffff] denotes. *)
Definition parse_iso_datetime (s : str) : option datetime :=
  match take_date s with
  | Some (d, s1) =>
    match take_char 84 s1 with
    | Some s2 =>
      match take_time s2 with
      | Some (h, m, sec, []) =>
          Some (Datetime (d_year d) (d_month d) (d_day d) h m sec 0)
      | Some (h, m, sec, s3) =>
          match take_char 46 s3 with
          | Some s4 =>
              match take_number 6 s4 with
              | Some (us, []) =>
                  Some (Datetime (d_year d) (d_month d) (d_day d) h m sec us)
              | _ => None
              end
          | None => None
          end
      | None => None
      end
    | None => None
    end
  | None => None
  end.

(** [a] is not later than [b], both read as ISO date-times. *)
Definition timestamp_le (a b : str) : Prop :=
  exists ta tb,
    parse_iso_datetime a = Some ta /\ parse_iso_datetime b = Some tb /\
    datetime_le ta tb.


(* ================================================================== *)
(** ** Observations on feeds and traces *)
(* ================================================================== *)

(** The papers a feed yields before it ends or raises. *)
Fixpoint feed_papers (f : feed) : list paper :=
  match f with
  | Yield p rest => p :: feed_papers rest
  | Stop | Throw _ => []
  end.

(** The exception that ends the feed, if one does. *)
Fixpoint feed_error (f : feed) : option exn :=
  match f with
  | Stop => None
  | Yield _ rest => feed_error rest
  | Throw e => Some e
  end.

Definition is_fetch (ev : event) : bool :=
  match ev with EvHttpGet _ _ => true | _ => false end.

Definition is_write (ev : event) : bool :=
  match ev with EvWriteBytes _ => true | _ => false end.

Definition is_search (ev : event) : bool :=
  match ev with EvArxivResults _ => true | _ => false end.

Definition count (p : event -> bool) (tr : list event) : nat :=
  length (filter p tr).

(* ================================================================== *)
(** ** The query language of the external index *)
(* ================================================================== *)

(** The template is written in a boolean query language, and shows
    this much of it: blanks separate words, double quotes hold a phrase
    together, parentheses group, and the words [AND] and [OR] connect
    operands ([ANDNOT], which the arXiv API also has, is taken along).
    How the index groups connectives that no parenthesis separates is
    not to be seen from the program, so no grouping is chosen here: an
    expression is cut into its top-level operands and connectives, and
    every way of grouping them is a reading of it.  What a group or a
    term means is left open as well. *)

Inductive token : Type :=
| TLParen
| TRParen
| TWord (w : str).






Inductive connective := CAnd | COr | CAndNot.


(** What stands between connectives at the top level: a parenthesised
    group, given by the tokens inside it, or a single term. *)
Inductive operand : Type :=
| OGroup (inside : list token)
| OTerm (w : str).

Inductive item : Type :=
| IOperand (x : operand)
| IConn (o : connective).





(** A way of grouping a chain of operands and connectives. *)
Inductive reading : Type :=
| Leaf (x : operand)
| Node (o : connective) (l r : reading).


(** Whether a paper matches an expression read as [t], given the
    operands it matches. *)
Fixpoint eval (sat : operand -> bool) (t : reading) : bool :=
  match t with
  | Leaf x => sat x
  | Node CAnd l r => eval sat l && eval sat r
  | Node COr l r => eval sat l || eval sat r
  | Node CAndNot l r => eval sat l && negb (eval sat r)
  end.

Fixpoint operands (c : list item) : list operand :=
  match c with
  | [] => []
  | IOperand x :: c' => x :: operands c'
  | IConn _ :: c' => operands c'
  end.

(** No connective but [AND]. *)
Definition all_and (c : list item) : bool :=
  forallb (fun i => match i with
                    | IOperand _ | IConn CAnd => true
                    | IConn _ => false
                    end) c.


(** The operands up to the first connective that is not [AND]. *)
Fixpoint and_prefix (c : list item) : list operand :=
  match c with
  | [] => []
  | IOperand x :: c' => x :: and_prefix c'
  | IConn CAnd :: c' => and_prefix c'
  | IConn _ :: _ => []
  end.









(** The template with the apostrophes of [s] standing for double
    quotes. *)
Definition with_dquotes (s : string) : str :=
  map (fun c => if (c =? 39)%N then 34%N else c) (lit s).
Arguments with_dquotes s%_string.

(** The fixed head of the search expression, as one literal. *)
Definition template : str :=
  with_dquotes "(ti:'SWaT' OR abs:'SWaT' OR abs:'Secure Water Treatment') AND (abs:'cyber physical' OR abs:'industrial control' OR abs:'ICS' OR abs:'water treatment') AND (".

Definition pow10 (w : nat) : N := (10 ^ N.of_nat w)%N.



(** The body carries a [query] attribute. *)
Definition query_present (body : pyval) : Prop :=
  exists d v, body = VDict d /\ dict_get (lit "query") d = Some v.

(** The framework refuses the request before any handler runs. *)
Definition rejected (E : env) (r : request) (w : world) : Prop :=
  fst (serve E r w) = Http422.

(** The two routes that take a [ChatRequest] body. *)
Definition body_route (route : pyval -> request) : Prop :=
  route = PostChat \/ route = PostArxivSearch.

(** The reply of the chat scaffold, but for its timestamp. *)
Definition chat_reply (t : str) : reply :=
  Http200
    (VDict [ (lit "answer",
               VStr (lit "This is a placeholder response from Swat Chat. The RAG pipeline will retrieve relevant research from arXiv as the primary source and ground it using the SWaT Operation Manual."));
             (lit "sources",
               VList [ VStr (lit "arXiv (primary)");
                       VStr (lit "SWaT Operation Manual (secondary)") ]);
             (lit "timestamp", VStr t) ]).

(* ================================================================== *)
(** ** Two concrete environments *)
(* ================================================================== *)

Definition sample_paper : paper := {|
  title := lit "A Dataset to Support Research in the Design of Secure Water Treatment Systems";
  summary := repeat 97%N 450;
  published := Datetime 2016 10 3 9 30 0 0;
  categories := [lit "cs.CR"]
|}.

Definition older_paper : paper := {|
  title := lit "SWaT: a water treatment testbed for research and training on ICS security";
  summary := lit "This paper presents the SWaT testbed.";
  published := Datetime 2016 4 11 8 0 0 0;
  categories := [lit "cs.CR"; lit "eess.SY"]
|}.

Definition sample_page : Document := {|
  page_content := lit "Secure Water Treatment (SWaT) Operation Manual";
  metadata := [(lit "page", VInt 0)]
|}.

(** Everything outside works: the host serves the manual, the loader
    finds two pages, the index has four papers and yields as many of
    them as the cap allows, and the clock advances
    by a microsecond per recorded interaction. *)
Definition online : env := {|
  BASE_DIR := lit "/srv/Backend";
  os_mkdir := fun _ => None;
  requests_get := fun _ target _ =>
    Ok {| status_code := 200; reason := lit "OK"; url := target;
          content := [Byte.x25; Byte.x50; Byte.x44; Byte.x46] |};
  os_write_bytes := fun _ _ => None;
  PyPDFLoader_init := fun _ _ _ => None;
  PyPDFLoader_load := fun _ _ => Ok [sample_page; sample_page];
  arxiv_results := fun _ s =>
    feed_of
      (firstn (Z.to_nat (max_results s))
         [sample_paper; sample_paper; sample_paper; sample_paper])
      Stop;
  datetime_utcnow := fun tr =>
    Datetime 2024 5 17 12 0 0 (N.of_nat (length tr));
  pydantic_lax := false
|}.

(** The network is unreachable: the fetch and the search both raise, the
    latter after one paper. *)
Definition offline : env := {|
  BASE_DIR := lit "/srv/Backend";
  os_mkdir := fun _ => None;
  requests_get := fun _ _ _ =>
    Raised (Exn "ConnectionError" (lit "Max retries exceeded"));
  os_write_bytes := fun _ _ => None;
  PyPDFLoader_init := fun _ _ _ => None;
  PyPDFLoader_load := fun _ _ => Ok [sample_page];
  arxiv_results := fun _ _ =>
    feed_of [sample_paper]
      (Throw (Exn "HTTPError" (lit "Page request resulted in HTTP 503")));
  datetime_utcnow := fun tr =>
    Datetime 2024 5 17 12 0 0 (N.of_nat (length tr));
  pydantic_lax := true
|}.

(** Everything outside works, but the wall clock is being set back:
    each reading is a microsecond earlier than the one before. *)
Definition backwards : env := {|
  BASE_DIR := lit "/srv/Backend";
  os_mkdir := fun _ => None;
  requests_get := fun _ target _ =>
    Ok {| status_code := 200; reason := lit "OK"; url := target;
          content := [Byte.x25; Byte.x50; Byte.x44; Byte.x46] |};
  os_write_bytes := fun _ _ => None;
  PyPDFLoader_init := fun _ _ _ => None;
  PyPDFLoader_load := fun _ _ => Ok [sample_page; sample_page];
  arxiv_results := fun _ _ => Stop;
  datetime_utcnow := fun tr =>
    Datetime 2024 5 17 12 0 0 (500000 - N.of_nat (length tr));
  pydantic_lax := false
|}.


(** A fresh checkout: no manual on disk, nothing recorded yet. *)
Definition fresh : world := World None [] [].


(* ================================================================== *)
(** ** Further observations *)
(* ================================================================== *)

Definition is_loader (ev : event) : bool :=
  match ev with
  | EvPdfLoaderInit _ | EvPdfLoaderLoad => true
  | _ => false
  end.

(** The line [download_swat_manual] prints before it fetches. *)
Definition downloading_notice : event :=
  EvPrint (lit "[INFO] Downloading SWaT Operation Manual from GitHub...").

(** The external interactions one request gives rise to: a clock reading
    for an accepted /chat, one index search for an accepted
    /arxiv-search, none otherwise. *)
Definition footprint (E : env) (r : request) : list event :=
  match r with
  | PostChat body =>
      match ChatRequest_validate E body with
      | Some _ => [EvUtcnow]
      | None => []
      end
  | PostArxivSearch body =>
      match ChatRequest_validate E body with
      | Some req =>
          [EvArxivResults
             {| query := constrained_query (ChatRequest.query req);
                max_results := 3;
                sort_by := Relevance |}]
      | None => []
      end
  | GetHealth | GetKbInfo => []
  end.

(** [v[k]] for a dictionary value. *)
Definition record_field (k : str) (v : pyval) : option pyval :=
  match v with
  | VDict d => dict_get k d
  | _ => None
  end.

(** The host serves a document in which the loader finds no page. *)
Definition blank : env := {|
  BASE_DIR := lit "/srv/Backend";
  os_mkdir := fun _ => None;
  requests_get := fun _ target _ =>
    Ok {| status_code := 200; reason := lit "OK"; url := target;
          content := [Byte.x25; Byte.x50; Byte.x44; Byte.x46] |};
  os_write_bytes := fun _ _ => None;
  PyPDFLoader_init := fun _ _ _ => None;
  PyPDFLoader_load := fun _ _ => Ok [];
  arxiv_results := fun _ _ => Stop;
  datetime_utcnow := fun tr =>
    Datetime 2024 5 17 12 0 0 (N.of_nat (length tr));
  pydantic_lax := false
|}.

(** The data directory cannot be created. *)
Definition readonly : env := {|
  BASE_DIR := lit "/srv/Backend";
  os_mkdir := fun _ => Some (Exn "PermissionError" (lit "Permission denied"));
  requests_get := fun _ target _ =>
    Ok {| status_code := 200; reason := lit "OK"; url := target;
          content := [Byte.x25; Byte.x50; Byte.x44; Byte.x46] |};
  os_write_bytes := fun _ _ => None;
  PyPDFLoader_init := fun _ _ _ => None;
  PyPDFLoader_load := fun _ _ => Ok [sample_page];
  arxiv_results := fun _ _ => Stop;
  datetime_utcnow := fun tr =>
    Datetime 2024 5 17 12 0 0 (N.of_nat (length tr));
  pydantic_lax := false
|}.

(** The host answers, but with a client-error status. *)
Definition missing : env := {|
  BASE_DIR := lit "/srv/Backend";
  os_mkdir := fun _ => None;
  requests_get := fun _ target _ =>
    Ok {| status_code := 404; reason := lit "Not Found"; url := target;
          content := [] |};
  os_write_bytes := fun _ _ => None;
  PyPDFLoader_init := fun _ _ _ => None;
  PyPDFLoader_load := fun _ _ => Ok [sample_page];
  arxiv_results := fun _ _ => Stop;
  datetime_utcnow := fun tr =>
    Datetime 2024 5 17 12 0 0 (N.of_nat (length tr));
  pydantic_lax := false
|}.

(** A checkout that already holds the manual. *)
Definition cached : world :=
  World (Some [Byte.x25; Byte.x50; Byte.x44; Byte.x46]) [] [].

(** The same, after the import has run. *)
Definition cached_busy : world :=
  World (Some [Byte.x25; Byte.x50; Byte.x44; Byte.x46])
    [sample_page; sample_page]
    [EvMkdir; EvPdfLoaderInit (PDF_PATH online); EvPdfLoaderLoad].

(** Python's order on [str]: code point by code point, a proper prefix
    before its extensions. *)
Fixpoint str_compare (a b : str) : comparison :=
  match a, b with
  | [], [] => Eq
  | [], _ :: _ => Lt
  | _ :: _, [] => Gt
  | x :: a', y :: b' =>
      match (x ?= y)%N with
      | Eq => str_compare a' b'
      | c => c
      end
  end.

(** Calendar order of dates whose fields are in range. *)
Definition date_key (d : date) : N :=
  ((d_year d * 13 + d_month d) * 32 + d_day d)%N.

(* ================================================================== *)
(** ** Decimal text: formatting and reading agree *)
(* ================================================================== *)

Unset Implicit Arguments.

Lemma pow10_S w : pow10 (S w) = (10 * pow10 w)%N.
Proof.
  unfold pow10. rewrite Nat2N.inj_succ, N.pow_succ_r'. reflexivity.
Qed.

Lemma pow2_S f : (2 ^ N.of_nat (S f) = 2 * 2 ^ N.of_nat f)%N.
Proof. rewrite Nat2N.inj_succ, N.pow_succ_r'. reflexivity. Qed.

Lemma div10_lt n p : (n < 10 * p -> n / 10 < p)%N.
Proof. intros H. apply N.Div0.div_lt_upper_bound; lia. Qed.

Lemma div10_half n p : (n < 2 * p -> n / 10 < p)%N.
Proof.
  intros H.
  assert (n / 10 <= n / 2)%N by (apply N.div_le_compat_l; lia).
  assert (n / 2 < p)%N by (apply N.Div0.div_lt_upper_bound; lia).
  lia.
Qed.

Lemma lsdw_zero w : lsdw w 0 = repeat 48%N w.
Proof.
  induction w as [|w IH]; simpl; [reflexivity|].
  change (0 / 10)%N with 0%N. rewrite IH. reflexivity.
Qed.

Lemma lsdw_length w n : length (lsdw w n) = w.
Proof.
  revert n; induction w as [|w IH]; intros n; simpl; [reflexivity|].
  now rewrite IH.
Qed.

(** With enough fuel, the digits without leading zeros are the
    fixed-width digits with the high zeros dropped. *)
Lemma lsd_lsdw w :
  forall fuel n,
    (n < pow10 (S w))%N -> (n < 2 ^ N.of_nat fuel)%N ->
    exists j, lsdw (S w) n = lsd fuel n ++ repeat 48%N j.
Proof.
  induction w as [|w IH]; intros fuel n Hn Hf.
  - destruct fuel as [|f].
    + assert (n = 0%N) by (simpl in Hf; lia). subst n.
      exists 1%nat. reflexivity.
    + exists 0%nat. simpl.
      assert (Hz : (n / 10 = 0)%N)
        by (apply N.div_small; unfold pow10 in Hn; simpl in Hn; lia).
      rewrite Hz. reflexivity.
  - destruct fuel as [|f].
    + assert (n = 0%N) by (simpl in Hf; lia). subst n.
      exists (S (S w)). rewrite lsdw_zero. reflexivity.
    + cbn [lsd]. change (lsdw (S (S w)) n) with (digit n :: lsdw (S w) (n / 10)).
      destruct (N.eqb_spec (n / 10) 0) as [Hz|Hz].
      * exists (S w). rewrite Hz, lsdw_zero. reflexivity.
      * rewrite pow10_S in Hn. rewrite pow2_S in Hf.
        destruct (IH f (n / 10)%N (div10_lt _ _ Hn) (div10_half _ _ Hf))
          as [j Hj].
        exists j. rewrite Hj. reflexivity.
Qed.

Lemma rev_repeat_same (x : codepoint) k : rev (repeat x k) = repeat x k.
Proof.
  induction k as [|k IH]; simpl; [reflexivity|].
  rewrite IH. clear IH.
  induction k as [|k IH]; simpl; [reflexivity|]. now rewrite IH.
Qed.

Lemma log2_fuel n : (n < 2 ^ N.of_nat (S (N.to_nat (N.log2 n))))%N.
Proof.
  rewrite Nat2N.inj_succ, N2Nat.id.
  destruct (N.eq_dec n 0) as [->|Hn]; [reflexivity|].
  apply N.log2_spec. lia.
Qed.

(** For a value that fits, [%0wd] is the [w] fixed-width digits. *)
Lemma zfill_fixed w n :
  (0 < w)%nat -> (n < pow10 w)%N -> zfill w n = rev (lsdw w n).
Proof.
  intros Hw Hn. destruct w as [|w]; [lia|].
  destruct (lsd_lsdw w (S (N.to_nat (N.log2 n))) n Hn (log2_fuel n))
    as [j Hj].
  unfold zfill, decimal. rewrite Hj, rev_app_distr, rev_repeat_same.
  f_equal. f_equal.
  apply (f_equal (@length _)) in Hj.
  rewrite lsdw_length, length_app, repeat_length in Hj.
  rewrite length_rev. lia.
Qed.

Lemma zfill_length w n :
  (0 < w)%nat -> (n < pow10 w)%N -> length (zfill w n) = w.
Proof.
  intros Hw Hn. rewrite zfill_fixed by assumption.
  now rewrite length_rev, lsdw_length.
Qed.

Lemma number_from_app acc a b :
  number_from acc (a ++ b) =
  match number_from acc a with
  | Some v => number_from v b
  | None => None
  end.
Proof.
  revert acc; induction a as [|c a IH]; intros acc; simpl; [reflexivity|].
  destruct (digit_val c); [apply IH | reflexivity].
Qed.

Lemma digit_val_digit n : digit_val (digit n) = Some (n mod 10)%N.
Proof.
  unfold digit_val, digit.
  assert (n mod 10 < 10)%N by (apply N.mod_lt; lia).
  generalize dependent (n mod 10)%N. intros m Hm.
  replace ((48 <=? 48 + m)%N && (48 + m <=? 57)%N) with true.
  - f_equal. lia.
  - symmetry. apply andb_true_iff. split; apply N.leb_le; lia.
Qed.

Lemma number_fixed w :
  forall acc n, (n < pow10 w)%N ->
    number_from acc (rev (lsdw w n)) = Some (acc * pow10 w + n)%N.
Proof.
  induction w as [|w IH]; intros acc n Hn.
  - unfold pow10 in *. simpl in *. f_equal. lia.
  - rewrite pow10_S in *. cbn [lsdw rev].
    rewrite number_from_app, (IH _ _ (div10_lt _ _ Hn)). cbn [number_from].
    rewrite digit_val_digit. f_equal.
    pose proof (N.div_mod n 10 ltac:(lia)) as Hd.
    generalize dependent (n mod 10)%N. generalize dependent (n / 10)%N.
    intros. lia.
Qed.

Lemma firstn_exact {A} (a b : list A) : firstn (length a) (a ++ b) = a.
Proof. induction a as [|x a IH]; simpl; [reflexivity | now rewrite IH]. Qed.

Lemma skipn_exact {A} (a b : list A) : skipn (length a) (a ++ b) = b.
Proof. induction a as [|x a IH]; simpl; [reflexivity | exact IH]. Qed.

Lemma take_number_zfill w n rest :
  (0 < w)%nat -> (n < pow10 w)%N ->
  take_number w (zfill w n ++ rest) = Some (n, rest).
Proof.
  intros Hw Hn. unfold take_number.
  pose proof (zfill_length w n Hw Hn) as Hl.
  assert (Hf : firstn w (zfill w n ++ rest) = zfill w n)
    by (rewrite <- Hl at 1; apply firstn_exact).
  assert (Hs : skipn w (zfill w n ++ rest) = rest)
    by (rewrite <- Hl at 1; apply skipn_exact).
  rewrite Hf, Hs, Hl, Nat.eqb_refl.
  rewrite zfill_fixed, number_fixed by assumption.
  reflexivity.
Qed.

Ltac fits :=
  solve [ lia
        | match goal with
          | |- (_ < pow10 ?w)%N =>
              let v := eval vm_compute in (pow10 w) in
              change (pow10 w) with v; lia
          end ].

Lemma take_date_isoformat d rest :
  date_ok d -> take_date (date_isoformat d ++ rest) = Some (d, rest).
Proof.
  intros (Hy & Hm & Hd). unfold take_date, date_isoformat.
  change (lit "-") with [45%N]. repeat rewrite <- app_assoc.
  rewrite take_number_zfill by fits.
  cbn [app take_char N.eqb Pos.eqb].
  rewrite take_number_zfill by fits.
  cbn [app take_char N.eqb Pos.eqb].
  rewrite take_number_zfill by fits.
  destruct d; reflexivity.
Qed.


Lemma date_isoformat_length d :
  date_ok d -> length (date_isoformat d) = 10%nat.
Proof.
  intros (Hy & Hm & Hd). unfold date_isoformat.
  repeat rewrite length_app.
  rewrite !zfill_length by fits. reflexivity.
Qed.

Lemma take_time_format h m s rest :
  (h < 24)%N -> (m < 60)%N -> (s < 60)%N ->
  take_time (zfill 2 h ++ lit ":" ++ zfill 2 m ++ lit ":" ++ zfill 2 s ++ rest)
  = Some (h, m, s, rest).
Proof.
  intros Hh Hm Hs. unfold take_time. change (lit ":") with [58%N].
  rewrite take_number_zfill by fits. cbn [app take_char N.eqb Pos.eqb].
  rewrite take_number_zfill by fits. cbn [app take_char N.eqb Pos.eqb].
  rewrite take_number_zfill by fits. reflexivity.
Qed.

(** Reading a formatted naive datetime gives the datetime back. *)
Lemma parse_iso_datetime_isoformat t :
  datetime_ok t -> parse_iso_datetime (datetime_isoformat t) = Some t.
Proof.
  intros (Hd & Hh & Hm & Hs & Hu).
  unfold parse_iso_datetime, datetime_isoformat.
  rewrite (take_date_isoformat _ _ Hd).
  change (lit "T") with [84%N]. cbn [app take_char N.eqb Pos.eqb].
  repeat rewrite <- app_assoc.
  rewrite (take_time_format _ _ _ _ Hh Hm Hs).
  destruct t as [y mo d h mi s us]; cbn [microsecond] in *.
  destruct (N.eqb_spec us 0) as [->|Hz]; [reflexivity|].
  change (lit ".") with [46%N]. cbn [app take_char N.eqb Pos.eqb].
  rewrite <- (app_nil_r (zfill 6 us)).
  rewrite take_number_zfill by fits. reflexivity.
Qed.

Lemma timestamp_le_isoformat a b :
  datetime_ok a -> datetime_ok b -> datetime_le a b ->
  timestamp_le (datetime_isoformat a) (datetime_isoformat b).
Proof.
  intros Ha Hb Hab. exists a, b.
  repeat split; auto using parse_iso_datetime_isoformat.
Qed.

(* ================================================================== *)
(** ** The search adapter *)
(* ================================================================== *)

Lemma constrained_query_template q :
  constrained_query q = template ++ q ++ lit ")".
Proof. reflexivity. Qed.

(** The loop returns the projections of the yielded papers, in order,
    unless the feed raises. *)
Lemma collect_spec f :
  forall acc,
    collect f acc =
    match feed_error f with
    | None => Ok (acc ++ map result_record (feed_papers f))
    | Some e => Raised e
    end.
Proof.
  induction f as [|p rest IH|e]; intros acc; simpl.
  - now rewrite app_nil_r.
  - rewrite IH. destruct (feed_error rest); [reflexivity|].
    now rewrite <- app_assoc.
  - reflexivity.
Qed.


Lemma feed_of_error ps e : feed_error (feed_of ps (Throw e)) = Some e.
Proof. induction ps as [|p ps IH]; simpl; auto. Qed.

Lemma count_snoc p tr ev :
  count p (tr ++ [ev]) = (count p tr + (if p ev then 1 else 0))%nat.
Proof.
  unfold count. rewrite filter_app, length_app. simpl.
  destruct (p ev); reflexivity.
Qed.

Lemma validate_query_body E q :
  ChatRequest_validate E (VDict [(lit "query", VStr q)])
  = Some (ChatRequest.Make q).
Proof.
  unfold ChatRequest_validate, ChatRequest_init.
  destruct (pydantic_lax E); reflexivity.
Qed.

(** C1. For every query string, the empty one included, the search
    expression handed to the external index is the fixed template
    followed by the query, character for character, and a closing
    parenthesis; it goes out in a single request, with the result cap
    and the relevance sort order. *)
Theorem search_sends_template (E : env) (q : str) (cap : Z) (w : world) :
  let sent := {| query := template ++ q ++ lit ")";
                 max_results := cap;
                 sort_by := Relevance |} in
  search_arxiv_swat E q cap w
  = (collect (arxiv_results E (trace w) sent) [],
     emit (EvArxivResults sent) w)
  /\ trace (snd (search_arxiv_swat E q cap w))
     = trace w ++ [EvArxivResults sent]
  /\ constrained_query [] = template ++ lit ")"
  /\ skipn (length template) (constrained_query q) = q ++ lit ")".
Proof.
  intros sent. repeat split.
Qed.



(** C5. An exception raised by the external search, at the call or
    while its results are iterated, leaves [search_arxiv_swat] and the
    /arxiv-search handler as it is and reaches the framework, which
    answers with its default error response.  The index has been asked
    exactly once: nothing is retried and no further page is requested. *)
Theorem search_failure_propagates (E : env) (q : str) (w : world) (e : exn) :
  let sent := {| query := constrained_query q; max_results := 3;
                 sort_by := Relevance |} in
  feed_error (arxiv_results E (trace w) sent) = Some e ->
  search_arxiv_swat E q 3 w = (Raised e, emit (EvArxivResults sent) w) /\
  arxiv_search E (ChatRequest.Make q) w
  = (Raised e, emit (EvArxivResults sent) w) /\
  serve E (PostArxivSearch (VDict [(lit "query", VStr q)])) w
  = (Http500 e, emit (EvArxivResults sent) w) /\
  count is_search (trace (emit (EvArxivResults sent) w))
  = S (count is_search (trace w)).
Proof.
  intros sent Herr.
  assert (Hs : search_arxiv_swat E q 3 w
               = (Raised e, emit (EvArxivResults sent) w)).
  { unfold search_arxiv_swat. fold sent. now rewrite collect_spec, Herr. }
  assert (Ha : arxiv_search E (ChatRequest.Make q) w
               = (Raised e, emit (EvArxivResults sent) w)).
  { unfold arxiv_search, bind, default_max_results.
    cbn [ChatRequest.query]. now rewrite Hs. }
  repeat split; try assumption.
  - unfold serve, with_body. rewrite validate_query_body.
    unfold respond. now rewrite Ha.
  - cbn [emit trace]. rewrite count_snoc. cbn [is_search]. lia.
Qed.




Lemma search_failure_propagates_witness :
  serve offline (PostArxivSearch (VDict [(lit "query", VStr (lit "PLC"))]))
    fresh
  = (Http500 (Exn "HTTPError" (lit "Page request resulted in HTTP 503")),
     emit (EvArxivResults
             {| query := constrained_query (lit "PLC"); max_results := 3;
                sort_by := Relevance |}) fresh).
Proof.
  apply (search_failure_propagates offline (lit "PLC") fresh
           (Exn "HTTPError" (lit "Page request resulted in HTTP 503"))
           eq_refl).
Defined.

(* ================================================================== *)
(** ** The document bootstrap *)
(* ================================================================== *)

Ltac unfold_ops :=
  unfold bind, ret, raise, try_except, print, path_exists, http_get,
    write_bytes, PyPDFLoader, loader_load, set_swat_docs, get_swat_docs,
    utcnow, mkdir_data_dir, emit in *.

Lemma download_present E w b :
  pdf_file w = Some b -> download_swat_manual E w = (Ok tt, w).
Proof.
  intros H. unfold download_swat_manual, bind, path_exists.
  rewrite H. reflexivity.
Qed.

(** Without the file, one invocation fetches exactly once, writes at
    most once, and leaves the module global alone. *)
Lemma download_absent E w :
  pdf_file w = None ->
  count is_fetch (trace (snd (download_swat_manual E w)))
  = S (count is_fetch (trace w)) /\
  (count is_write (trace (snd (download_swat_manual E w)))
   <= S (count is_write (trace w)))%nat /\
  swat_docs (snd (download_swat_manual E w)) = swat_docs w.
Proof.
  intros H. unfold download_swat_manual. unfold_ops. rewrite H.
  cbn [negb trace pdf_file swat_docs].
  destruct (requests_get E _ _ _) as [r|e]; cbn [snd trace swat_docs].
  - unfold raise_for_status.
    destruct (_ && _).
    { unfold_ops. cbn [snd trace swat_docs pdf_file].
      rewrite !count_snoc. cbn. split; [lia | split; [lia | reflexivity]]. }
    destruct (_ && _).
    { unfold_ops. cbn [snd trace swat_docs pdf_file].
      rewrite !count_snoc. cbn. split; [lia | split; [lia | reflexivity]]. }
    unfold_ops. cbn [snd trace swat_docs pdf_file].
    destruct (os_write_bytes E _ _) as [[e l]|];
      cbn [snd trace swat_docs pdf_file];
      rewrite !count_snoc; cbn; (split; [lia | split; [lia | reflexivity]]).
  - rewrite !count_snoc. cbn. split; [lia | split; [lia | reflexivity]].
Qed.

(** C7. [download_swat_manual] looks for the file before it fetches.
    With the file present it does nothing: no fetch, no write, the world
    is as before.  So over two invocations, the file being there after
    the first, the manual is fetched at most once and written at most
    once, and the second invocation leaves the file as the first left
    it. *)
Theorem download_idempotent (E : env) (w : world) :
  (pdf_file w <> None -> download_swat_manual E w = (Ok tt, w)) /\
  forall w1,
    w1 = snd (download_swat_manual E w) ->
    pdf_file w1 <> None ->
    download_swat_manual E w1 = (Ok tt, w1) /\
    (count is_fetch (trace (snd (download_swat_manual E w1)))
     <= count is_fetch (trace w) + 1)%nat /\
    (count is_write (trace (snd (download_swat_manual E w1)))
     <= count is_write (trace w) + 1)%nat /\
    pdf_file (snd (download_swat_manual E w1)) = pdf_file w1.
Proof.
  assert (Hpresent : forall v, pdf_file v <> None ->
                               download_swat_manual E v = (Ok tt, v)).
  { intros v Hv. destruct (pdf_file v) as [b|] eqn:Hb; [|congruence].
    exact (download_present E v b Hb). }
  split; [apply Hpresent|].
  intros w1 Hw1 Hfile. rewrite (Hpresent w1 Hfile). cbn [snd].
  split; [reflexivity|].
  destruct (pdf_file w) as [b|] eqn:Hb.
  - rewrite (download_present E w b Hb) in Hw1. subst w1. cbn [snd].
    repeat split; lia.
  - destruct (download_absent E w Hb) as (Hf & Hwr & _).
    subst w1. repeat split; lia.
Qed.

Lemma download_idempotent_witness :
  let w1 := snd (download_swat_manual online fresh) in
  pdf_file w1 <> None /\
  download_swat_manual online w1 = (Ok tt, w1) /\
  count is_fetch (trace w1) = 1%nat.
Proof.
  intros w1.
  assert (Hfile : pdf_file w1 <> None) by (vm_compute; discriminate).
  destruct (download_idempotent online fresh) as [_ Htwice].
  destruct (Htwice w1 eq_refl Hfile) as (Hsecond & _).
  split; [exact Hfile|]. split; [exact Hsecond | reflexivity].
Defined.

Lemma load_manual_try_ok E w w1 :
  load_manual_try E w = (Ok tt, w1) ->
  exists w0 docs,
    PyPDFLoader_load E (trace w0) (pdf_file w0) = Ok docs /\
    swat_docs w1 = docs /\ In EvPdfLoaderLoad (trace w1).
Proof.
  unfold load_manual_try. unfold bind at 1.
  destruct (download_swat_manual E w) as [[[]|e] wa]; [|discriminate].
  unfold bind at 1. unfold PyPDFLoader.
  destruct (PyPDFLoader_init E _ _ _); [discriminate|].
  unfold bind at 1. unfold loader_load.
  destruct (PyPDFLoader_load E (trace (emit (EvPdfLoaderInit (PDF_PATH E)) wa))
              (pdf_file (emit (EvPdfLoaderInit (PDF_PATH E)) wa)))
    as [docs|e] eqn:Hload; [|discriminate].
  unfold_ops. intros H. injection H as <-.
  exists (World (pdf_file wa) (swat_docs wa)
            (trace wa ++ [EvPdfLoaderInit (PDF_PATH E)])), docs.
  cbn [trace pdf_file swat_docs] in *. repeat split; [exact Hload|].
  apply in_or_app. left. apply in_or_app. right. left. reflexivity.
Qed.

Lemma kb_info_reply E w :
  serve E GetKbInfo w
  = (Http200
       (VDict [ (lit "documents_loaded",
                  VInt (Z.of_nat (length (swat_docs w))));
                (lit "secondary_source", VStr (lit "SWaT Operation Manual"));
                (lit "source_location", VStr (lit "GitHub (public repo)")) ]),
     w).
Proof. reflexivity. Qed.

(** C6. The bootstrap never lets an exception out, so the module goes
    on to serve requests.  If anything raised inside the [try] block,
    [swat_docs] is the empty list and GET /kb-info reports
    [documents_loaded] 0.  If nothing raised, [swat_docs] is what the
    loader returned and [documents_loaded] is its length, positive when
    the loader found a page. *)
Theorem bootstrap_degrades (E : env) (w : world) :
  exists w',
    load_manual E w = (Ok tt, w') /\
    (os_mkdir E (trace w) = None -> fst (module_init E w) = Ok tt) /\
    (forall e w1,
        load_manual_try E w = (Raised e, w1) ->
        swat_docs w' = [] /\
        fst (serve E GetKbInfo w')
        = Http200
            (VDict [ (lit "documents_loaded", VInt 0);
                     (lit "secondary_source",
                       VStr (lit "SWaT Operation Manual"));
                     (lit "source_location",
                       VStr (lit "GitHub (public repo)")) ])) /\
    (forall w1,
        load_manual_try E w = (Ok tt, w1) ->
        exists w0 docs,
          PyPDFLoader_load E (trace w0) (pdf_file w0) = Ok docs /\
          swat_docs w' = docs /\
          fst (serve E GetKbInfo w')
          = Http200
              (VDict [ (lit "documents_loaded",
                         VInt (Z.of_nat (length docs)));
                       (lit "secondary_source",
                         VStr (lit "SWaT Operation Manual"));
                       (lit "source_location",
                         VStr (lit "GitHub (public repo)")) ]) /\
          (docs <> [] -> (0 < Z.of_nat (length docs))%Z)).
Proof.
  assert (Htotal : forall v, fst (load_manual E v) = Ok tt).
  { intros v. unfold load_manual, try_except.
    destruct (load_manual_try E v) as [[[]|e] v1]; reflexivity. }
  exists (snd (load_manual E w)). split; [|split; [|split]].
  - rewrite (surjective_pairing (load_manual E w)) at 1.
    now rewrite Htotal.
  - intros Hdir. unfold module_init, bind, mkdir_data_dir.
    rewrite Hdir. apply Htotal.
  - intros e w1 Htry. unfold load_manual, try_except. rewrite Htry.
    split; reflexivity.
  - intros w1 Htry. unfold load_manual, try_except. rewrite Htry.
    cbn [snd]. destruct (load_manual_try_ok E w w1 Htry)
      as (w0 & docs & Hload & Hdocs & _).
    exists w0, docs. rewrite kb_info_reply, Hdocs. cbn [fst].
    repeat split; try assumption.
    intros Hne. destruct docs; [congruence | cbn; lia].
Qed.

Lemma bootstrap_degrades_witness :
  swat_docs (snd (load_manual offline fresh)) = [] /\
  swat_docs (snd (load_manual online fresh)) = [sample_page; sample_page].
Proof.
  split.
  - destruct (bootstrap_degrades offline fresh) as (w' & Hrun & _ & Hfail & _).
    rewrite Hrun. cbn [snd].
    exact (proj1 (Hfail _ _ eq_refl)).
  - destruct (bootstrap_degrades online fresh) as (w' & Hrun & _ & _ & Hok).
    rewrite Hrun. cbn [snd].
    destruct (Hok _ eq_refl) as (w0 & docs & Hload & Hdocs & _).
    rewrite Hdocs. cbn in Hload. congruence.
Defined.

(* ================================================================== *)
(** ** The request handlers *)
(* ================================================================== *)

(** One request changes neither the file nor [swat_docs], and neither
    fetches nor writes. *)
Lemma serve_frame E r w :
  pdf_file (snd (serve E r w)) = pdf_file w /\
  swat_docs (snd (serve E r w)) = swat_docs w /\
  count is_write (trace (snd (serve E r w))) = count is_write (trace w) /\
  count is_fetch (trace (snd (serve E r w))) = count is_fetch (trace w).
Proof.
  destruct r as [body|body| |]; unfold serve, with_body;
    try destruct (ChatRequest_validate E body) as [req|];
    unfold respond, chat_endpoint, arxiv_search, search_arxiv_swat,
      health_check, kb_info;
    unfold_ops; cbn [snd]; auto.
  - cbn [pdf_file swat_docs trace]. rewrite !count_snoc. cbn. auto.
  - destruct (collect _ _); cbn [snd pdf_file swat_docs trace];
      rewrite !count_snoc; cbn; auto.
Qed.

Lemma serve_all_snd E r rs w :
  snd (serve_all E (r :: rs) w) = snd (serve_all E rs (snd (serve E r w))).
Proof.
  cbn [serve_all]. destruct (serve E r w) as [a w1]. cbn [snd].
  destruct (serve_all E rs w1) as [l w2]. reflexivity.
Qed.

(** C10. Whatever requests are served, in whatever order, the manual
    file and the loaded page sequence are afterwards what they were
    before; no handler fetches or writes; and GET /kb-info gives the
    same answer after them as before. *)
Theorem handlers_preserve_manual (E : env) (rs : list request) (w : world) :
  let w' := snd (serve_all E rs w) in
  pdf_file w' = pdf_file w /\
  swat_docs w' = swat_docs w /\
  count is_write (trace w') = count is_write (trace w) /\
  count is_fetch (trace w') = count is_fetch (trace w) /\
  fst (serve E GetKbInfo w') = fst (serve E GetKbInfo w).
Proof.
  revert w. induction rs as [|r rs IH]; intros w.
  - cbn. auto.
  - cbv zeta in *. rewrite serve_all_snd.
    destruct (IH (snd (serve E r w))) as (Hf & Hd & Hw & Hg & _).
    destruct (serve_frame E r w) as (Hf1 & Hd1 & Hw1 & Hg1).
    rewrite !kb_info_reply. cbn [fst].
    repeat split; congruence.
Qed.

Lemma chat_reply_of E q w :
  serve E (PostChat (VDict [(lit "query", VStr q)])) w
  = (chat_reply (datetime_isoformat (datetime_utcnow E (trace w))),
     emit EvUtcnow w).
Proof.
  unfold serve, with_body. rewrite validate_query_body. reflexivity.
Qed.

Lemma timestamp_le_iff a b :
  datetime_ok a -> datetime_ok b ->
  timestamp_le (datetime_isoformat a) (datetime_isoformat b)
  <-> datetime_le a b.
Proof.
  intros Ha Hb. split.
  - intros (ta & tb & Hpa & Hpb & Hle).
    rewrite (parse_iso_datetime_isoformat a Ha) in Hpa.
    rewrite (parse_iso_datetime_isoformat b Hb) in Hpb.
    congruence.
  - now apply timestamp_le_isoformat.
Qed.

(** C8, as the code has it.  A POST /chat call and any later one of
    the same run, whatever their queries and whatever is served in
    between, are answered with the same answer text and the same two
    source labels; the replies differ in the timestamp alone.  Each
    timestamp is the ISO 8601 text of the UTC clock reading taken by its
    call and reads back as that instant.  The later timestamp is not
    earlier than the former exactly when the later clock reading is not
    earlier than the former one. *)
Theorem chat_constant
  (E : env) (q1 q2 : str) (between : list request) (w : world) :
  let w1 := snd (serve E (PostChat (VDict [(lit "query", VStr q1)])) w) in
  let w2 := snd (serve_all E between w1) in
  let now1 := datetime_utcnow E (trace w) in
  let now2 := datetime_utcnow E (trace w2) in
  datetime_ok now1 -> datetime_ok now2 ->
  exists t1 t2,
    fst (serve E (PostChat (VDict [(lit "query", VStr q1)])) w)
    = chat_reply t1 /\
    fst (serve E (PostChat (VDict [(lit "query", VStr q2)])) w2)
    = chat_reply t2 /\
    t1 = datetime_isoformat now1 /\ t2 = datetime_isoformat now2 /\
    parse_iso_datetime t1 = Some now1 /\
    parse_iso_datetime t2 = Some now2 /\
    (timestamp_le t1 t2 <-> datetime_le now1 now2).
Proof.
  intros w1 w2 now1 now2 H1 H2.
  exists (datetime_isoformat now1), (datetime_isoformat now2).
  rewrite !chat_reply_of. cbn [fst].
  repeat split; auto using parse_iso_datetime_isoformat;
    now apply timestamp_le_iff.
Qed.

Lemma chat_constant_witness :
  let first := PostChat (VDict [(lit "query", VStr (lit "What is P1?"))]) in
  let next := PostChat (VDict [(lit "query", VStr (lit "Explain LIT101"))]) in
  exists t1 t2,
    fst (serve online first fresh) = chat_reply t1 /\
    fst (serve online next
           (snd (serve_all online [GetHealth; GetKbInfo]
                   (snd (serve online first fresh))))) = chat_reply t2 /\
    timestamp_le t1 t2.
Proof.
  intros first next.
  destruct (chat_constant online (lit "What is P1?") (lit "Explain LIT101")
              [GetHealth; GetKbInfo] fresh
              ltac:(unfold datetime_ok, date_ok; cbn; lia)
              ltac:(unfold datetime_ok, date_ok; cbn; lia))
    as (t1 & t2 & Hr1 & Hr2 & _ & _ & _ & _ & Hts).
  exists t1, t2. split; [exact Hr1|]. split; [exact Hr2|].
  apply Hts. unfold datetime_le, datetime_key. cbn. lia.
Defined.

(** C8, as stated, fails: the timestamp is read from the wall clock,
    which can be set back.  With a clock that loses a microsecond
    between two consecutive POST /chat calls, the second reply carries
    the earlier timestamp. *)
Lemma clock_set_back_reorders_timestamps :
  let first := PostChat (VDict [(lit "query", VStr (lit "What is P1?"))]) in
  let next := PostChat (VDict [(lit "query", VStr (lit "Explain LIT101"))]) in
  exists t1 t2,
    fst (serve backwards first fresh) = chat_reply t1 /\
    fst (serve backwards next (snd (serve backwards first fresh)))
    = chat_reply t2 /\
    ~ timestamp_le t1 t2.
Proof.
  intros first next. unfold first, next. rewrite !chat_reply_of.
  cbn [fst snd]. eexists _, _. split; [reflexivity|]. split; [reflexivity|].
  intros Hle. apply timestamp_le_iff in Hle.
  - unfold datetime_le, datetime_key in Hle. cbn in Hle. lia.
  - unfold datetime_ok, date_ok. cbn. lia.
  - unfold datetime_ok, date_ok. cbn. lia.
Qed.

(* ================================================================== *)
(** ** Request validation *)
(* ================================================================== *)

Lemma with_body_rejected E body h w :
  fst (with_body E body h w) = Http422 <-> ChatRequest_validate E body = None.
Proof.
  unfold with_body. destruct (ChatRequest_validate E body) as [req|].
  - unfold respond. destruct (h req w) as [[v|e] w1]; cbn; split; discriminate.
  - cbn. split; reflexivity.
Qed.

Lemma rejected_iff E route body w :
  body_route route ->
  rejected E (route body) w <-> ChatRequest_validate E body = None.
Proof.
  intros [-> | ->]; unfold rejected, serve; apply with_body_rejected.
Qed.

Lemma ChatRequest_init_query E d v :
  dict_get (lit "query") d = Some v ->
  validate_str E v = None ->
  ChatRequest_init E d = None.
Proof.
  intros Hget Hv. unfold ChatRequest_init. rewrite Hget, Hv.
  destruct (_ && _); reflexivity.
Qed.

(** C9, as the code has it.  On both routes that take a body, a JSON
    object is refused when it has no [query] attribute and when the
    [query] value is null, an array or an object.  When the [query]
    value is a string the request is accepted and the handler gets that
    string, whatever its content and however long it is (under
    pydantic 1, unless the object also has an attribute named
    [__pydantic_self__]). *)
Theorem request_validation
  (E : env) (route : pyval -> request) (w : world) :
  body_route route ->
  (forall d, dict_get (lit "query") d = None ->
             rejected E (route (VDict d)) w) /\
  (forall d v,
      dict_get (lit "query") d = Some v ->
      v = VNone \/ (exists l, v = VList l) \/ (exists m, v = VDict m) ->
      rejected E (route (VDict d)) w) /\
  (forall d s,
      dict_get (lit "query") d = Some (VStr s) ->
      (pydantic_lax E = true ->
       dict_get (lit "__pydantic_self__") d = None) ->
      ChatRequest_validate E (VDict d) = Some (ChatRequest.Make s) /\
      ~ rejected E (route (VDict d)) w).
Proof.
  intros Hroute. split; [|split].
  - intros d Hnone. apply (rejected_iff E route _ w Hroute).
    cbn [ChatRequest_validate]. unfold ChatRequest_init. rewrite Hnone.
    destruct (_ && _); reflexivity.
  - intros d v Hget Hv. apply (rejected_iff E route _ w Hroute).
    cbn [ChatRequest_validate]. apply (ChatRequest_init_query E d v Hget).
    destruct Hv as [-> | [[l ->] | [m ->]]]; reflexivity.
  - intros d s Hget Hself.
    assert (Hvalid : ChatRequest_validate E (VDict d)
                     = Some (ChatRequest.Make s)).
    { cbn [ChatRequest_validate]. unfold ChatRequest_init. rewrite Hget.
      destruct (pydantic_lax E); [|reflexivity].
      rewrite (Hself eq_refl). reflexivity. }
    split; [exact Hvalid|].
    intros Hrej. apply (rejected_iff E route _ w Hroute) in Hrej.
    congruence.
Qed.

Lemma request_validation_witness :
  rejected online (PostChat (VDict [(lit "q", VStr (lit "pump"))])) fresh /\
  ~ rejected online
      (PostChat (VDict [(lit "query", VStr (repeat 120%N 5000))])) fresh /\
  ~ rejected offline
      (PostArxivSearch
         (VDict [(lit "top_k", VInt 5); (lit "query", VStr (lit "pump"))]))
      fresh.
Proof.
  destruct (request_validation online PostChat fresh (or_introl eq_refl))
    as (Habsent & _ & Hstring).
  destruct (request_validation offline PostArxivSearch fresh
              (or_intror eq_refl)) as (_ & _ & Hlax).
  split; [|split].
  - apply Habsent. reflexivity.
  - exact (proj2 (Hstring [(lit "query", VStr (repeat 120%N 5000))]
                    (repeat 120%N 5000) eq_refl
                    ltac:(intros Hlaxity; discriminate Hlaxity))).
  - exact (proj2 (Hlax [(lit "top_k", VInt 5);
                        (lit "query", VStr (lit "pump"))]
                    (lit "pump") eq_refl ltac:(intros _; reflexivity))).
Defined.

(** C9, as stated, fails: a body whose [query] attribute is present
    with the value null is refused, on both routes and under either way
    of validating a [str] field. *)
Lemma null_query_is_rejected :
  let body := VDict [(lit "query", VNone)] in
  query_present body /\
  rejected online (PostChat body) fresh /\
  rejected offline (PostArxivSearch body) fresh /\
  ~ (forall b, rejected online (PostChat b) fresh <-> ~ query_present b).
Proof.
  intros body.
  assert (Hp : query_present body).
  { exists [(lit "query", VNone)], VNone. split; reflexivity. }
  repeat split; try assumption; try reflexivity.
  intros Hclaim. apply (proj1 (Hclaim body)); [reflexivity | exact Hp].
Qed.

(* ================================================================== *)
(** ** The search expression, read by the index *)
(* ================================================================== *)














Lemma and_prefix_all_and c : all_and c = true -> and_prefix c = operands c.
Proof.
  induction c as [|[x|o] c IH]; cbn [all_and forallb and_prefix operands];
    [reflexivity| |].
  - intros H. now rewrite (IH H).
  - destruct o; intros H; try discriminate. exact (IH H).
Qed.









(* ================================================================== *)
(** ** The download, case by case *)
(* ================================================================== *)

Ltac run_download Hnone :=
  unfold download_swat_manual; unfold_ops; rewrite Hnone;
  cbn [negb trace pdf_file swat_docs].

(** When the manual is absent and the fetch fails, by an exception of
    [requests.get] or by a 4xx or 5xx status, [download_swat_manual]
    raises before it writes: the file is still absent, and the only
    interactions are the notice and one GET of the fixed URL with a
    30 second timeout. *)
Theorem download_fetch_failure (E : env) (w : world) :
  pdf_file w = None ->
  let tr := trace w ++ [downloading_notice] in
  let after := World None (swat_docs w)
                 (tr ++ [EvHttpGet GITHUB_PDF_URL 30]) in
  (forall e,
      requests_get E tr GITHUB_PDF_URL 30 = Raised e ->
      download_swat_manual E w = (Raised e, after)) /\
  (forall r,
      requests_get E tr GITHUB_PDF_URL 30 = Ok r ->
      (400 <= status_code r < 600)%Z ->
      exists e,
        download_swat_manual E w = (Raised e, after) /\
        exn_class e = "HTTPError"%string).
Proof.
  intros Hnone tr after. subst tr after. unfold downloading_notice. split.
  - intros e Hget. run_download Hnone. rewrite Hget, Hnone. reflexivity.
  - intros r Hget Hstatus. run_download Hnone. rewrite Hget.
    unfold raise_for_status.
    destruct ((400 <=? status_code r)%Z && (status_code r <? 500)%Z) eqn:H4.
    { eexists. unfold raise. cbn [pdf_file swat_docs trace].
      rewrite Hnone. split; reflexivity. }
    destruct ((500 <=? status_code r)%Z && (status_code r <? 600)%Z) eqn:H5.
    { eexists. unfold raise. cbn [pdf_file swat_docs trace].
      rewrite Hnone. split; reflexivity. }
    exfalso. apply andb_false_iff in H4, H5.
    rewrite !Z.leb_gt, !Z.ltb_ge in *. lia.
Qed.

Lemma download_fetch_failure_witness :
  download_swat_manual offline fresh
  = (Raised (Exn "ConnectionError" (lit "Max retries exceeded")),
     World None [] [downloading_notice; EvHttpGet GITHUB_PDF_URL 30]) /\
  pdf_file (snd (download_swat_manual missing fresh)) = None.
Proof.
  split.
  - exact (proj1 (download_fetch_failure offline fresh eq_refl) _ eq_refl).
  - destruct (proj2 (download_fetch_failure missing fresh eq_refl)
                {| status_code := 404; reason := lit "Not Found";
                   url := GITHUB_PDF_URL; content := [] |} eq_refl
                ltac:(cbn; lia)) as (e & Hrun & _).
    rewrite Hrun. reflexivity.
Defined.

(** When the manual is absent, the fetch answers with any status outside
    400..599 and the write succeeds, the file afterwards holds the
    response body byte for byte, whatever the status and however short
    the body, and the call returns normally. *)
Theorem download_stores_body (E : env) (w : world) (r : Response) :
  pdf_file w = None ->
  let tr := trace w ++ [downloading_notice] in
  requests_get E tr GITHUB_PDF_URL 30 = Ok r ->
  ~ (400 <= status_code r < 600)%Z ->
  os_write_bytes E (tr ++ [EvHttpGet GITHUB_PDF_URL 30]) (content r) = None ->
  download_swat_manual E w
  = (Ok tt,
     World (Some (content r)) (swat_docs w)
       (tr ++ [EvHttpGet GITHUB_PDF_URL 30; EvWriteBytes (content r);
               EvPrint (lit "[INFO] Download completed")])).
Proof.
  intros Hnone tr Hget Hstatus Hwrite. subst tr.
  unfold downloading_notice in *. run_download Hnone. rewrite Hget.
  unfold raise_for_status.
  destruct ((400 <=? status_code r)%Z && (status_code r <? 500)%Z) eqn:H4.
  { exfalso. apply andb_true_iff in H4. rewrite Z.leb_le, Z.ltb_lt in H4. lia. }
  destruct ((500 <=? status_code r)%Z && (status_code r <? 600)%Z) eqn:H5.
  { exfalso. apply andb_true_iff in H5. rewrite Z.leb_le, Z.ltb_lt in H5. lia. }
  unfold ret. cbn [pdf_file swat_docs trace]. rewrite Hwrite.
  cbn [pdf_file swat_docs trace]. rewrite <- !app_assoc. reflexivity.
Qed.

Lemma download_stores_body_witness :
  pdf_file (snd (download_swat_manual online fresh))
  = Some [Byte.x25; Byte.x50; Byte.x44; Byte.x46].
Proof.
  rewrite (download_stores_body online fresh
             {| status_code := 200; reason := lit "OK";
                url := GITHUB_PDF_URL;
                content := [Byte.x25; Byte.x50; Byte.x44; Byte.x46] |}
             eq_refl eq_refl ltac:(cbn; lia) eq_refl).
  reflexivity.
Defined.

(** An invocation that leaves no file behind is not remembered: the next
    one fetches again, so two such invocations make two fetches. *)
Theorem download_retries_after_failure (E : env) (w : world) :
  pdf_file w = None ->
  pdf_file (snd (download_swat_manual E w)) = None ->
  count is_fetch
    (trace (snd (download_swat_manual E (snd (download_swat_manual E w)))))
  = (count is_fetch (trace w) + 2)%nat.
Proof.
  intros Hnone Hstill.
  destruct (download_absent E w Hnone) as (Hfirst & _).
  destruct (download_absent E _ Hstill) as (Hsecond & _).
  lia.
Qed.

Lemma download_retries_after_failure_witness :
  count is_fetch
    (trace (snd (download_swat_manual offline
                   (snd (download_swat_manual offline fresh)))))
  = 2%nat.
Proof.
  exact (download_retries_after_failure offline fresh eq_refl eq_refl).
Defined.

(* ================================================================== *)
(** ** The bootstrap, case by case *)
(* ================================================================== *)

Lemma load_manual_total E w : fst (load_manual E w) = Ok tt.
Proof.
  unfold load_manual, try_except.
  destruct (load_manual_try E w) as [[[]|e] w1]; reflexivity.
Qed.

(** With the manual already on disk the bootstrap stays off the
    network: it neither fetches nor writes and leaves the file as it
    is.  [swat_docs] becomes the loader's pages, or the empty list when
    the loader's constructor or its [load] raises. *)
Theorem load_manual_cached (E : env) (w : world) (b : bytes) :
  pdf_file w = Some b ->
  let w' := snd (load_manual E w) in
  pdf_file w' = Some b /\
  count is_fetch (trace w') = count is_fetch (trace w) /\
  count is_write (trace w') = count is_write (trace w) /\
  swat_docs w'
  = match PyPDFLoader_init E (trace w) (PDF_PATH E) (Some b) with
    | Some _ => []
    | None =>
        match PyPDFLoader_load E
                (trace w ++ [EvPdfLoaderInit (PDF_PATH E)]) (Some b) with
        | Ok docs => docs
        | Raised _ => []
        end
    end.
Proof.
  intros Hfile w'. subst w'.
  unfold load_manual, try_except, load_manual_try, load_manual_except.
  unfold bind. rewrite (download_present E w b Hfile).
  unfold_ops. rewrite Hfile.
  destruct (PyPDFLoader_init E (trace w) (PDF_PATH E) (Some b)).
  { cbn [snd pdf_file swat_docs trace]. rewrite !count_snoc. cbn.
    repeat split; auto; lia. }
  cbn [pdf_file swat_docs trace]. rewrite ?Hfile.
  destruct (PyPDFLoader_load E _ (Some b));
    cbn [snd pdf_file swat_docs trace]; rewrite !count_snoc; cbn;
    repeat split; auto; lia.
Qed.

Lemma load_manual_cached_witness :
  let w' := snd (load_manual offline cached) in
  count is_fetch (trace w') = 0%nat /\ swat_docs w' = [sample_page].
Proof.
  destruct (load_manual_cached offline cached
              [Byte.x25; Byte.x50; Byte.x44; Byte.x46] eq_refl)
    as (_ & Hfetch & _ & Hdocs).
  split; [exact Hfetch | exact Hdocs].
Defined.

Lemma download_no_loader E w :
  count is_loader (trace (snd (download_swat_manual E w)))
  = count is_loader (trace w).
Proof.
  destruct (pdf_file w) as [b|] eqn:Hfile.
  - now rewrite (download_present E w b Hfile).
  - run_download Hfile.
    destruct (requests_get E _ _ _) as [r|e]; cbn [snd trace].
    + unfold raise_for_status.
      destruct (_ && _).
      { unfold_ops. cbn [snd trace]. rewrite !count_snoc. cbn. lia. }
      destruct (_ && _).
      { unfold_ops. cbn [snd trace]. rewrite !count_snoc. cbn. lia. }
      unfold_ops. cbn [snd trace pdf_file swat_docs].
      destruct (os_write_bytes E _ _) as [[e l]|]; cbn [snd trace];
        rewrite !count_snoc; cbn; lia.
    + rewrite !count_snoc. cbn. lia.
Qed.

(** When the download raises, the loader is never constructed and never
    asked to load: the bootstrap goes straight to the handler, which
    empties [swat_docs] and prints the exception's text. *)
Theorem load_manual_skips_loader (E : env) (w w1 : world) (e : exn) :
  download_swat_manual E w = (Raised e, w1) ->
  load_manual E w
  = (Ok tt,
     World (pdf_file w1) []
       (trace w1
          ++ [EvPrint (lit "[ERROR] Failed to load SWaT manual: "
                         ++ exn_message e)])) /\
  count is_loader (trace (snd (load_manual E w)))
  = count is_loader (trace w).
Proof.
  intros Hdown.
  assert (Hrun : load_manual E w
                 = (Ok tt,
                    World (pdf_file w1) []
                      (trace w1
                         ++ [EvPrint
                               (lit "[ERROR] Failed to load SWaT manual: "
                                  ++ exn_message e)]))).
  { unfold load_manual, try_except, load_manual_try, load_manual_except.
    unfold bind at 1. rewrite Hdown. reflexivity. }
  split; [exact Hrun|].
  rewrite Hrun. cbn [snd trace]. rewrite count_snoc. cbn [is_loader].
  pose proof (download_no_loader E w) as Hno. rewrite Hdown in Hno.
  cbn [snd] in Hno. lia.
Qed.

Lemma load_manual_skips_loader_witness :
  count is_loader (trace (snd (load_manual missing fresh))) = 0%nat /\
  swat_docs (snd (load_manual missing fresh)) = [].
Proof.
  destruct (load_manual_skips_loader missing fresh
              (snd (download_swat_manual missing fresh))
              (Exn "HTTPError"
                 (str_of_int 404 ++ lit " Client Error: "
                    ++ lit "Not Found" ++ lit " for url: " ++ GITHUB_PDF_URL))
              eq_refl) as [Hrun Hcount].
  split; [exact Hcount|]. rewrite Hrun. reflexivity.
Defined.

(** Importing the module fails exactly when the data directory cannot
    be created: that call stands outside the [try] block, so its
    exception ends the import with nothing fetched, loaded or bound.
    When the directory is there, the import always completes. *)
Theorem module_init_outcome (E : env) (w : world) :
  match os_mkdir E (trace w) with
  | Some e =>
      module_init E w
      = (Raised e, World (pdf_file w) (swat_docs w) (trace w ++ [EvMkdir]))
  | None =>
      fst (module_init E w) = Ok tt /\
      snd (module_init E w)
      = snd (load_manual E
               (World (pdf_file w) (swat_docs w) (trace w ++ [EvMkdir])))
  end.
Proof.
  unfold module_init, bind, mkdir_data_dir, emit.
  destruct (os_mkdir E (trace w)); [reflexivity|].
  split; [apply load_manual_total | reflexivity].
Qed.

(** GET /kb-info cannot tell a bootstrap that failed from one that
    loaded a document without pages: the reply is the same. *)
Theorem kb_info_conflates_failure (E1 E2 E : env) (w1 w2 v1 v2 : world)
  (e : exn) :
  load_manual_try E1 w1 = (Raised e, v1) ->
  load_manual_try E2 w2 = (Ok tt, v2) ->
  swat_docs v2 = [] ->
  fst (serve E GetKbInfo (snd (load_manual E1 w1)))
  = fst (serve E GetKbInfo (snd (load_manual E2 w2))).
Proof.
  intros Hfail Hok Hempty.
  rewrite !kb_info_reply. cbn [fst].
  unfold load_manual, try_except. rewrite Hfail, Hok.
  cbn [snd]. rewrite Hempty. reflexivity.
Qed.

Lemma kb_info_conflates_failure_witness :
  fst (serve online GetKbInfo (snd (load_manual offline fresh)))
  = fst (serve online GetKbInfo (snd (load_manual blank fresh))).
Proof.
  exact (kb_info_conflates_failure offline blank online fresh fresh _ _ _
           eq_refl eq_refl eq_refl).
Defined.

(* ================================================================== *)
(** ** The search adapter and the handlers, further *)
(* ================================================================== *)

(** The summary of a result record is as long as the paper's summary or
    400 characters, whichever is less; it is the whole summary exactly
    when that has at most 400 characters. *)
Theorem record_summary_truncation (p : paper) :
  exists s,
    record_field (lit "summary") (result_record p) = Some (VStr s) /\
    length s = Nat.min 400 (length (summary p)) /\
    (s = summary p <-> (length (summary p) <= 400)%nat).
Proof.
  exists (firstn 400 (summary p)). split; [reflexivity|].
  split; [apply length_firstn|]. split.
  - intros Heq. apply (f_equal (@length _)) in Heq.
    rewrite length_firstn in Heq. lia.
  - intros Hshort. now apply firstn_all2.
Qed.

(** Two queries are sent as the same search expression only when they
    are the same query. *)
Theorem constrained_query_injective (q1 q2 : str) :
  constrained_query q1 = constrained_query q2 <-> q1 = q2.
Proof.
  split; [|now intros ->].
  rewrite !constrained_query_template. intros Heq.
  apply app_inv_head in Heq. now apply app_inv_tail in Heq.
Qed.

(** POST /arxiv-search, in full: a body that does not validate is
    refused; otherwise the reply is the framework's error when the feed
    raises, whatever it yielded before, and else the object with the
    query as validated, the source label and one record per yielded
    paper, none dropped and none added by the handler. *)
Theorem arxiv_search_outcome (E : env) (body : pyval) (w : world) :
  fst (serve E (PostArxivSearch body) w)
  = match ChatRequest_validate E body with
    | None => Http422
    | Some req =>
        let f := arxiv_results E (trace w)
                   {| query := constrained_query (ChatRequest.query req);
                      max_results := 3;
                      sort_by := Relevance |} in
        match feed_error f with
        | Some e => Http500 e
        | None =>
            Http200
              (VDict [ (lit "query", VStr (ChatRequest.query req));
                       (lit "primary_source", VStr (lit "arXiv"));
                       (lit "results",
                         VList (map result_record (feed_papers f))) ])
        end
    end.
Proof.
  unfold serve, with_body.
  destruct (ChatRequest_validate E body) as [req|]; [|reflexivity].
  unfold respond, arxiv_search, bind, search_arxiv_swat, default_max_results.
  rewrite collect_spec. cbv zeta.
  destruct (feed_error _); reflexivity.
Qed.

Lemma serve_trace E r w :
  trace (snd (serve E r w)) = trace w ++ footprint E r.
Proof.
  destruct r as [body|body| |]; unfold serve, with_body, footprint;
    try destruct (ChatRequest_validate E body) as [req|];
    unfold respond, chat_endpoint, arxiv_search, search_arxiv_swat,
      health_check, kb_info, default_max_results;
    unfold_ops; cbn [snd trace]; rewrite ?app_nil_r; try reflexivity.
  destruct (collect _ _); reflexivity.
Qed.

Lemma serve_all_fst E r rs w :
  fst (serve_all E (r :: rs) w)
  = fst (serve E r w) :: fst (serve_all E rs (snd (serve E r w))).
Proof.
  cbn [serve_all]. destruct (serve E r w) as [a w1]. cbn [snd fst].
  destruct (serve_all E rs w1) as [l w2]. reflexivity.
Qed.

(** Serving a sequence of requests answers each of them, and extends
    the trace by the requests' footprints in order: one clock reading
    per accepted /chat, one index search per accepted /arxiv-search,
    and nothing for /health, /kb-info and refused requests. *)
Theorem serve_all_trace (E : env) (rs : list request) (w : world) :
  trace (snd (serve_all E rs w)) = trace w ++ flat_map (footprint E) rs /\
  length (fst (serve_all E rs w)) = length rs.
Proof.
  revert w. induction rs as [|r rs IH]; intros w.
  - cbn. now rewrite app_nil_r.
  - rewrite serve_all_snd, serve_all_fst.
    destruct (IH (snd (serve E r w))) as [Htrace Hlen].
    rewrite Htrace, serve_trace. cbn [flat_map length].
    rewrite <- app_assoc, Hlen. split; reflexivity.
Qed.

Lemma datetime_isoformat_length t :
  datetime_ok t ->
  length (datetime_isoformat t)
  = if (microsecond t =? 0)%N then 19%nat else 26%nat.
Proof.
  intros (Hd & Hh & Hm & Hs & Hu). unfold datetime_isoformat.
  repeat rewrite length_app.
  rewrite (date_isoformat_length _ Hd), !zfill_length by fits.
  destruct (microsecond t =? 0)%N; [reflexivity|].
  rewrite length_app, zfill_length by fits. reflexivity.
Qed.

(** The timestamp of a /chat reply has 19 characters when the clock
    reading falls on a whole second, the fraction then being left out,
    and 26 characters otherwise. *)
Theorem chat_timestamp_length (E : env) (q : str) (w : world) :
  let now := datetime_utcnow E (trace w) in
  datetime_ok now ->
  exists t,
    fst (serve E (PostChat (VDict [(lit "query", VStr q)])) w)
    = chat_reply t /\
    length t = if (microsecond now =? 0)%N then 19%nat else 26%nat.
Proof.
  intros now Hok. exists (datetime_isoformat now).
  rewrite chat_reply_of.
  split; [reflexivity | now apply datetime_isoformat_length].
Qed.

Lemma chat_timestamp_length_witness :
  exists t1 t2,
    fst (serve online (PostChat (VDict [(lit "query", VStr (lit "P1"))]))
           fresh) = chat_reply t1 /\
    length t1 = 19%nat /\
    fst (serve online (PostChat (VDict [(lit "query", VStr (lit "P1"))]))
           cached_busy) = chat_reply t2 /\
    length t2 = 26%nat.
Proof.
  destruct (chat_timestamp_length online (lit "P1") fresh
              ltac:(unfold datetime_ok, date_ok; cbn; lia))
    as (t1 & Hr1 & Hl1).
  destruct (chat_timestamp_length online (lit "P1") cached_busy
              ltac:(unfold datetime_ok, date_ok; cbn; lia))
    as (t2 & Hr2 & Hl2).
  exists t1, t2. repeat split; assumption.
Defined.

(* ================================================================== *)
(** ** The manual file over the process's life *)
(* ================================================================== *)

(** Nothing in the bootstrap but the download touches the file or the
    network: after it the file is what the download left, also when the
    loader then fails on it, and no further fetch or write was made. *)
Theorem load_manual_keeps_download (E : env) (w : world) :
  let w' := snd (load_manual E w) in
  let w1 := snd (download_swat_manual E w) in
  pdf_file w' = pdf_file w1 /\
  count is_fetch (trace w') = count is_fetch (trace w1) /\
  count is_write (trace w') = count is_write (trace w1).
Proof.
  cbv zeta.
  unfold load_manual, try_except, load_manual_try, load_manual_except, bind.
  destruct (download_swat_manual E w) as [[[]|e] w1]; cbn [snd].
  - unfold_ops.
    destruct (PyPDFLoader_init E (trace w1) (PDF_PATH E) (pdf_file w1)).
    { cbn [snd pdf_file trace]. rewrite !count_snoc. cbn.
      repeat split; lia. }
    cbn [pdf_file swat_docs trace].
    destruct (PyPDFLoader_load E _ (pdf_file w1));
      cbn [snd pdf_file trace]; rewrite !count_snoc; cbn;
      repeat split; lia.
  - unfold_ops. cbn [snd pdf_file trace]. rewrite !count_snoc. cbn.
    repeat split; lia.
Qed.

(** Restarting the process on a disk that holds the manual never
    fetches it again and leaves it as it is, whatever the first import
    went through and whether or not the manual parses. *)
Theorem restart_keeps_manual (E1 E2 : env) (w : world) :
  let w1 := snd (module_init E1 w) in
  let w2 := snd (module_init E2 w1) in
  pdf_file w1 <> None ->
  pdf_file w2 = pdf_file w1 /\
  count is_fetch (trace w2) = count is_fetch (trace w1).
Proof.
  intros w1 w2 Hfile. subst w2. generalize dependent w1. intros v Hfile.
  destruct (pdf_file v) as [b|] eqn:Hb; [clear Hfile | congruence].
  unfold module_init, bind, mkdir_data_dir.
  destruct (os_mkdir E2 (trace v)).
  { cbn [snd emit pdf_file trace]. rewrite count_snoc. cbn.
    split; [exact Hb | lia]. }
  unfold load_manual, try_except, load_manual_try, load_manual_except, bind.
  rewrite (download_present E2 (emit EvMkdir v) b)
    by (cbn [emit pdf_file]; exact Hb).
  unfold_ops. cbn [pdf_file swat_docs trace]. rewrite Hb.
  destruct (PyPDFLoader_init E2 _ (PDF_PATH E2) (Some b)).
  { cbn [snd pdf_file trace]. rewrite !count_snoc. cbn.
    split; [reflexivity | lia]. }
  cbn [pdf_file swat_docs trace].
  destruct (PyPDFLoader_load E2 _ _);
    cbn [snd pdf_file trace]; rewrite !count_snoc; cbn;
    (split; [reflexivity | lia]).
Qed.

Lemma restart_keeps_manual_witness :
  let w1 := snd (module_init online fresh) in
  let w2 := snd (module_init offline w1) in
  pdf_file w2 = Some [Byte.x25; Byte.x50; Byte.x44; Byte.x46] /\
  count is_fetch (trace w2) = 1%nat.
Proof.
  intros w1 w2. subst w1 w2.
  destruct (restart_keeps_manual online offline fresh
              ltac:(vm_compute; discriminate)) as [Hfile Hfetch].
  split.
  - rewrite Hfile. reflexivity.
  - rewrite Hfetch. reflexivity.
Defined.

(* ================================================================== *)
(** ** ISO text sorts as time does *)
(* ================================================================== *)

Lemma N_add_compare p n m : (p + n ?= p + m)%N = (n ?= m)%N.
Proof.
  destruct (N.compare_spec n m) as [->|Hlt|Hgt].
  - apply N.compare_refl.
  - apply N.compare_lt_iff. lia.
  - apply N.compare_gt_iff. lia.
Qed.

Lemma compare_radix base hi hi' lo lo' :
  (lo < base)%N -> (lo' < base)%N ->
  (hi * base + lo ?= hi' * base + lo')%N
  = match (hi ?= hi')%N with
    | Eq => (lo ?= lo')%N
    | c => c
    end.
Proof.
  intros Hlo Hlo'. destruct (N.compare_spec hi hi') as [->|Hlt|Hgt].
  - apply N_add_compare.
  - apply N.compare_lt_iff. nia.
  - apply N.compare_gt_iff. nia.
Qed.

Lemma str_compare_cons c a b :
  str_compare (c :: a) (c :: b) = str_compare a b.
Proof. cbn [str_compare]. now rewrite N.compare_refl. Qed.

(** Numbers written with the same number of digits compare as text the
    way they compare as numbers. *)
Lemma str_compare_fixed w :
  forall n m r1 r2,
    (n < pow10 w)%N -> (m < pow10 w)%N ->
    str_compare (rev (lsdw w n) ++ r1) (rev (lsdw w m) ++ r2)
    = match (n ?= m)%N with
      | Eq => str_compare r1 r2
      | c => c
      end.
Proof.
  induction w as [|w IH]; intros n m r1 r2 Hn Hm.
  - unfold pow10 in *. cbn in Hn, Hm.
    assert (n = 0%N) by lia. assert (m = 0%N) by lia. subst. reflexivity.
  - rewrite pow10_S in *. cbn [lsdw rev]. rewrite <- !app_assoc.
    rewrite (IH _ _ _ _ (div10_lt _ _ Hn) (div10_lt _ _ Hm)).
    cbn [app str_compare]. unfold digit. rewrite N_add_compare.
    assert (Hb : (n mod 10 < 10)%N) by (apply N.mod_lt; lia).
    assert (Hb' : (m mod 10 < 10)%N) by (apply N.mod_lt; lia).
    pose proof (compare_radix 10 (n / 10) (m / 10) (n mod 10) (m mod 10)
                  Hb Hb') as Hradix.
    rewrite (N.mul_comm (n / 10)), (N.mul_comm (m / 10)) in Hradix.
    rewrite <- !N.div_mod in Hradix by lia.
    rewrite Hradix.
    destruct (n / 10 ?= m / 10)%N; [|reflexivity|reflexivity].
    destruct (n mod 10 ?= m mod 10)%N; reflexivity.
Qed.

Lemma str_compare_zfill w n m r1 r2 :
  (0 < w)%nat -> (n < pow10 w)%N -> (m < pow10 w)%N ->
  str_compare (zfill w n ++ r1) (zfill w m ++ r2)
  = match (n ?= m)%N with
    | Eq => str_compare r1 r2
    | c => c
    end.
Proof.
  intros Hw Hn Hm. rewrite !zfill_fixed by assumption.
  now apply str_compare_fixed.
Qed.

Lemma str_compare_date d1 d2 r1 r2 :
  date_ok d1 -> date_ok d2 ->
  str_compare (date_isoformat d1 ++ r1) (date_isoformat d2 ++ r2)
  = match (date_key d1 ?= date_key d2)%N with
    | Eq => str_compare r1 r2
    | c => c
    end.
Proof.
  intros (Hy1 & Hm1 & Hd1) (Hy2 & Hm2 & Hd2).
  unfold date_isoformat, date_key. change (lit "-") with [45%N].
  repeat rewrite <- app_assoc.
  rewrite str_compare_zfill by fits. cbn [app]. rewrite str_compare_cons.
  rewrite str_compare_zfill by fits. cbn [app]. rewrite str_compare_cons.
  rewrite str_compare_zfill by fits.
  rewrite !compare_radix by lia.
  destruct (d_year d1 ?= d_year d2)%N; try reflexivity.
  destruct (d_month d1 ?= d_month d2)%N; reflexivity.
Qed.

(** The published fields of two result records compare as text the way
    the publication dates compare on the calendar, so sorting results
    by that field sorts them by date. *)
Theorem published_sorts_by_date (p1 p2 : paper) :
  date_ok (datetime_date (published p1)) ->
  date_ok (datetime_date (published p2)) ->
  exists s1 s2,
    record_field (lit "published") (result_record p1) = Some (VStr s1) /\
    record_field (lit "published") (result_record p2) = Some (VStr s2) /\
    str_compare s1 s2
    = (date_key (datetime_date (published p1))
       ?= date_key (datetime_date (published p2)))%N.
Proof.
  intros H1 H2. eexists _, _. split; [reflexivity|]. split; [reflexivity|].
  rewrite <- (app_nil_r (date_isoformat (datetime_date (published p1)))).
  rewrite <- (app_nil_r (date_isoformat (datetime_date (published p2)))).
  rewrite (str_compare_date _ _ [] [] H1 H2).
  destruct (_ ?= _)%N; reflexivity.
Qed.

Lemma published_sorts_by_date_witness :
  exists s1 s2,
    record_field (lit "published") (result_record sample_paper)
    = Some (VStr s1) /\
    record_field (lit "published") (result_record older_paper)
    = Some (VStr s2) /\
    str_compare s1 s2 = Gt.
Proof.
  destruct (published_sorts_by_date sample_paper older_paper
              ltac:(unfold date_ok; cbn; lia)
              ltac:(unfold date_ok; cbn; lia))
    as (s1 & s2 & H1 & H2 & Hcmp).
  exists s1, s2. repeat split; assumption.
Defined.

Lemma str_compare_fraction u1 u2 :
  (u1 < 1000000)%N -> (u2 < 1000000)%N ->
  str_compare
    (if (u1 =? 0)%N then [] else lit "." ++ zfill 6 u1)
    (if (u2 =? 0)%N then [] else lit "." ++ zfill 6 u2)
  = (u1 ?= u2)%N.
Proof.
  intros H1 H2. change (lit ".") with [46%N].
  destruct (N.eqb_spec u1 0) as [->|Hz1]; destruct (N.eqb_spec u2 0) as [->|Hz2].
  - reflexivity.
  - cbn [app str_compare]. symmetry. apply N.compare_lt_iff. lia.
  - cbn [app str_compare]. symmetry. apply N.compare_gt_iff. lia.
  - cbn [app]. rewrite str_compare_cons.
    rewrite <- (app_nil_r (zfill 6 u1)), <- (app_nil_r (zfill 6 u2)).
    rewrite str_compare_zfill by fits.
    destruct (u1 ?= u2)%N; reflexivity.
Qed.

Lemma str_compare_datetime a b :
  datetime_ok a -> datetime_ok b ->
  str_compare (datetime_isoformat a) (datetime_isoformat b)
  = (datetime_key a ?= datetime_key b)%N.
Proof.
  intros (Hda & Hha & Hma & Hsa & Hua) (Hdb & Hhb & Hmb & Hsb & Hub).
  unfold datetime_isoformat.
  rewrite (str_compare_date _ _ _ _ Hda Hdb).
  change (lit "T") with [84%N]. change (lit ":") with [58%N].
  cbn [app]. rewrite str_compare_cons.
  rewrite str_compare_zfill by fits. cbn [app]. rewrite str_compare_cons.
  rewrite str_compare_zfill by fits. cbn [app]. rewrite str_compare_cons.
  rewrite str_compare_zfill by fits.
  unfold datetime_key.
  rewrite !compare_radix by lia.
  change ((year a * 13 + month a) * 32 + day a)%N
    with (date_key (datetime_date a)).
  change ((year b * 13 + month b) * 32 + day b)%N
    with (date_key (datetime_date b)).
  destruct (date_key (datetime_date a) ?= date_key (datetime_date b))%N;
    try reflexivity.
  destruct (hour a ?= hour b)%N; try reflexivity.
  destruct (minute a ?= minute b)%N; try reflexivity.
  destruct (second a ?= second b)%N; try reflexivity.
  now apply str_compare_fraction.
Qed.

(** The timestamps of two /chat replies compare as text the way the
    clock readings compare in time, also when one has a fraction and
    the other has none: sorting replies by timestamp sorts them by
    time. *)
Theorem chat_timestamps_sort_by_time (E : env) (q1 q2 : str) (w1 w2 : world) :
  let now1 := datetime_utcnow E (trace w1) in
  let now2 := datetime_utcnow E (trace w2) in
  datetime_ok now1 -> datetime_ok now2 ->
  exists t1 t2,
    fst (serve E (PostChat (VDict [(lit "query", VStr q1)])) w1)
    = chat_reply t1 /\
    fst (serve E (PostChat (VDict [(lit "query", VStr q2)])) w2)
    = chat_reply t2 /\
    str_compare t1 t2 = (datetime_key now1 ?= datetime_key now2)%N.
Proof.
  intros now1 now2 H1 H2.
  exists (datetime_isoformat now1), (datetime_isoformat now2).
  rewrite !chat_reply_of.
  split; [reflexivity|]. split; [reflexivity|].
  now apply str_compare_datetime.
Qed.

Lemma chat_timestamps_sort_by_time_witness :
  exists t1 t2,
    fst (serve online (PostChat (VDict [(lit "query", VStr (lit "P1"))]))
           fresh) = chat_reply t1 /\
    fst (serve online (PostChat (VDict [(lit "query", VStr (lit "P2"))]))
           cached_busy) = chat_reply t2 /\
    str_compare t1 t2 = Lt.
Proof.
  destruct (chat_timestamps_sort_by_time online (lit "P1") (lit "P2")
              fresh cached_busy
              ltac:(unfold datetime_ok, date_ok; cbn; lia)
              ltac:(unfold datetime_ok, date_ok; cbn; lia))
    as (t1 & t2 & H1 & H2 & Hcmp).
  exists t1, t2. repeat split; assumption.
Defined.
